(** * run_backtest_2024.py: portfolio aggregation and reporting

    A shallow embedding of [run_backtest_2024.py] and the properties of its
    aggregation loop, ranking and report.

    Modelling conventions.
    - Python [int] values (trade counts, exit-reason counts, [len]) are [Z].
    - Python [float] values ([rr], percentages, money) are exact rationals
      [Q]: the arithmetic is the one the source writes, without binary64
      rounding.  Comparisons on them are the value comparisons of [QArith].
    - A dict read with [d.get(key, default)] is a record of [option] fields,
      [None] standing for an absent key.
    - [print], the artifact file and the calls to the external engine are
      effects on an explicit [world]; exceptions are the [Raise] results of
      a state-and-error monad [M].
    - The names imported from [config] and [backtest] are not part of this
      file of the repository; they are parameters ([Config], [engine]). *)

From Stdlib Require Import ZArith QArith List String Ascii Bool.
From Stdlib Require Import Permutation Sorted Lia Lqa DecimalString Floats.
Import ListNotations.

Local Open Scope string_scope.
Local Open Scope Q_scope.
Local Open Scope Z_scope.

(** ** Python values and built-ins *)

(** [d.get(key, default)] on an optional field. *)
Definition get {A : Type} (field : option A) (default : A) : A :=
  match field with
  | Some v => v
  | None => default
  end.

(** [sum(xs)] on floats and on ints: left to right, starting from [0]. *)
Definition sum_Q (xs : list Q) : Q := fold_left Qplus xs 0%Q.
Definition sum_Z (xs : list Z) : Z := fold_left Z.add xs 0.

(** [x > y] on floats. *)
Definition Qgtb (x y : Q) : bool := negb (Qle_bool x y).

(** [s * n] on a string. *)
Fixpoint repeat_string (s : string) (n : nat) : string :=
  match n with
  | O => ""
  | S n' => s ++ repeat_string s n'
  end.

(** [not s] for the result of [os.getenv]: true on [None] and on [""]. *)
Definition py_not (v : option string) : bool :=
  match v with
  | None => true
  | Some s => (String.length s =? 0)%nat
  end.

(** The exceptions the program meets.  [SystemExit] derives from
    [BaseException] only, so [except Exception] does not catch it. *)
Inductive exn : Type :=
| Exception (msg : string)
| ZeroDivisionError
| SystemExit (code : Z).

Definition is_Exception (e : exn) : bool :=
  match e with
  | Exception _ | ZeroDivisionError => true
  | SystemExit _ => false
  end.

(** [str(e)]. *)
Definition str_exn (e : exn) : string :=
  match e with
  | Exception msg => msg
  | ZeroDivisionError => "division by zero"
  | SystemExit code => DecimalString.NilZero.string_of_int (Z.to_int code)
  end.

Inductive pyres (A : Type) : Type :=
| Return (a : A)
| Raise (e : exn).
Arguments Return {A} a.
Arguments Raise {A} e.

(** JSON-like values: what [run_full_backtest] returns and [json.dump]
    writes.  A dict keeps its insertion order. *)
#[local] Set Warnings "-register-all".
Inductive pyval : Type :=
| VInt (z : Z)
| VFloat (q : Q)
| VStr (s : string)
| VList (items : list pyval)
| VDict (entries : list (string * pyval)).

Fixpoint dict_get (key : string) (entries : list (string * pyval)) : option pyval :=
  match entries with
  | [] => None
  | (k, v) :: rest => if String.eqb k key then Some v else dict_get key rest
  end.

(** [v[key]] read as an option: [None] when [v] is not a dict or lacks [key]. *)
Definition lookup (key : string) (v : pyval) : option pyval :=
  match v with
  | VDict entries => dict_get key entries
  | _ => None
  end.

(** ** Data model *)

Module Trade.
Record t : Type := mk { rr : option Q }.
End Trade.

(** The dict returned by [run_backtest(asset, period)]. *)
Module SimulationResult.
Record t : Type := mk {
  total_trades : option Z;
  win_rate : option Q;
  net_return_pct : option Q;
  trades : option (list Trade.t);
  max_drawdown_pct : option Q;
  tp1_trail_hits : option Z;
  tp2_hits : option Z;
  tp3_hits : option Z;
  sl_hits : option Z
}.
End SimulationResult.

(** One entry of [all_results] (lines 95-107). *)
Module AssetSummary.
Record t : Type := mk {
  asset : string;
  trades : Z;
  win_rate : Q;
  total_r : Q;
  return_pct : Q;
  max_dd_pct : Q;
  tp1_hits : Z;
  tp2_hits : Z;
  tp3_hits : Z;
  sl_hits : Z;
  full_result : SimulationResult.t
}.
End AssetSummary.

(** The names imported from [config]. *)
Record Config : Type := mkConfig {
  FOREX_PAIRS : list string;
  METALS : list string;
  INDICES : list string;
  CRYPTO_ASSETS : list string;
  ACCOUNT_SIZE : Q;
  RISK_PER_TRADE_PCT : Q;
  SIGNAL_MODE : string
}.

(** [backtest.run_backtest]: the external engine, a function of the asset
    and the period that returns a result dict or raises.  What it raises is
    an [Exception] with a message: its failures are catchable ones. *)
Inductive outcome : Type :=
| Ok (result : SimulationResult.t)
| Failed (msg : string).

Definition engine : Type := string -> string -> outcome.

(** ** Effects *)

(** One [print] call.  Literal text is kept as it is; a formatted line
    carries the values it formats. *)
Inductive line : Type :=
| Text (s : string)
| PPeriod (period : string)
| PSummaryPeriod (period : string)
| PAccountSize (account_size : Q)
| PRiskPerTrade (risk_pct : Q)
| PSignalMode (mode : string)
| PTesting (n : nat)
| PProgress (i n : nat) (asset : string)
| POutcome (total_trades : Z) (win_rate total_r : Q)
| PError (msg : string)
| PAssetsWithTrades (n : nat)
| PTotalTrades (n : Z)
| PWinRate (avg_win_rate : Q)
| PTotalR (total_r_all : Q)
| PAvgR (avg_r : Q)
| PNetReturn (total_return_pct total_profit_usd : Q)
| PExit (label : string) (hits : Z) (pct : Q)
| PTop (i : nat) (asset : string) (trades : Z) (win_rate total_r return_pct : Q)
| PSaved (path : string).

Record world : Type := mkWorld {
  stdout : list line;                    (* printed so far, oldest first *)
  artifact : option string;              (* backtest_results_2024.json *)
  sim_calls : list (string * string)     (* run_backtest invocations *)
}.

Definition initial_world : world := mkWorld [] None [].

Definition M (A : Type) : Type := world -> world * pyres A.

Definition ret {A : Type} (a : A) : M A := fun w => (w, Return a).

Definition bind {A B : Type} (c : M A) (k : A -> M B) : M B :=
  fun w =>
    match c w with
    | (w', Return a) => k a w'
    | (w', Raise e) => (w', Raise e)
    end.

Declare Scope py_scope.
Delimit Scope py_scope with py.
Notation "x <- c ;; k" := (bind c (fun x => k))
  (at level 61, c at next level, right associativity) : py_scope.
Notation "c ;; k" := (bind c (fun _ => k))
  (at level 61, right associativity) : py_scope.
Local Open Scope py_scope.

Definition raise {A : Type} (e : exn) : M A := fun w => (w, Raise e).

Definition print (l : line) : M unit :=
  fun w => (mkWorld (stdout w ++ [l]) (artifact w) (sim_calls w), Return tt).

Definition write_file (contents : string) : M unit :=
  fun w => (mkWorld (stdout w) (Some contents) (sim_calls w), Return tt).

Definition call_engine (run_backtest : engine) (asset period : string)
  : M SimulationResult.t :=
  fun w => (mkWorld (stdout w) (artifact w) (sim_calls w ++ [(asset, period)]),
            match run_backtest asset period with
            | Ok result => Return result
            | Failed msg => Raise (Exception msg)
            end).

(** [try: body except Exception as e: handler]. *)
Definition try_except {A : Type} (body : M A) (handler : exn -> M A) : M A :=
  fun w =>
    match body w with
    | (w', Return a) => (w', Return a)
    | (w', Raise e) => if is_Exception e then handler e w' else (w', Raise e)
    end.

(** [a / b] on numbers. *)
Definition truediv (a b : Q) : M Q :=
  if Qeq_bool b 0 then raise ZeroDivisionError else ret (a / b)%Q.

(** [for x in xs: locals = body(locals, x)]. *)
Fixpoint for_each {S X : Type} (xs : list X) (body : S -> X -> M S) (locals : S) : M S :=
  match xs with
  | [] => ret locals
  | x :: rest => locals' <- body locals x ;; for_each rest body locals'
  end.

(** [enumerate(xs, start)]. *)
Fixpoint enumerate {X : Type} (xs : list X) (start : nat) : list (nat * X) :=
  match xs with
  | [] => []
  | x :: rest => (start, x) :: enumerate rest (S start)
  end.

(** [list.sort(key=key, reverse=True)]: Python's sort is stable, also under
    [reverse=True], so the result is the descending arrangement in which
    elements with equal keys keep their order.  It is computed here by
    insertion from the right. *)
Fixpoint insert_desc {A : Type} (key : A -> Q) (x : A) (sorted : list A) : list A :=
  match sorted with
  | [] => [x]
  | y :: rest =>
      if Qle_bool (key y) (key x) then x :: y :: rest
      else y :: insert_desc key x rest
  end.

Fixpoint sort_by_key_desc {A : Type} (key : A -> Q) (l : list A) : list A :=
  match l with
  | [] => []
  | x :: rest => insert_desc key x (sort_by_key_desc key rest)
  end.

(** ** [json.dump(obj, f, indent=2)]

    The layout is the one of [json.encoder] with [indent=2]: items on their
    own lines, separated by [","], keys and values by [": "], empty
    containers written [[]] and [{}].  The renderings of a float and of a
    string are the encoder's own ([float.__repr__], [encode_basestring_ascii])
    and are taken as parameters. *)
Record json_encoder : Type := mkEncoder {
  float_repr : Q -> string;
  encode_basestring_ascii : string -> string
}.

Definition newline : string := String (ascii_of_nat 10) "".

Definition newline_indent (level : nat) : string :=
  newline ++ repeat_string "  " level.

Definition str_int (z : Z) : string :=
  DecimalString.NilZero.string_of_int (Z.to_int z).

Fixpoint dumps (enc : json_encoder) (level : nat) (v : pyval) : string :=
  match v with
  | VInt z => str_int z
  | VFloat q => float_repr enc q
  | VStr s => encode_basestring_ascii enc s
  | VList [] => "[]"
  | VList (x :: xs) =>
      "[" ++ newline_indent (S level) ++ dumps enc (S level) x
      ++ (fix items (l : list pyval) : string :=
            match l with
            | [] => ""
            | y :: l' =>
                "," ++ newline_indent (S level) ++ dumps enc (S level) y ++ items l'
            end) xs
      ++ newline_indent level ++ "]"
  | VDict [] => "{}"
  | VDict ((k, x) :: xs) =>
      "{" ++ newline_indent (S level)
      ++ encode_basestring_ascii enc k ++ ": " ++ dumps enc (S level) x
      ++ (fix items (l : list (string * pyval)) : string :=
            match l with
            | [] => ""
            | (k', y) :: l' =>
                "," ++ newline_indent (S level)
                ++ encode_basestring_ascii enc k' ++ ": " ++ dumps enc (S level) y
                ++ items l'
            end) xs
      ++ newline_indent level ++ "}"
  end.

Definition json_dump (enc : json_encoder) (obj : pyval) : M unit :=
  write_file (dumps enc 0 obj).

(** ** The program *)

(** [os.getenv]. *)
Definition environ : Type := string -> option string.

Definition rule : line := Text (repeat_string "=" 70).

(** Lines 23-41. *)
Definition check_credentials (getenv : environ) : M bool :=
  let api_key := getenv "OANDA_API_KEY" in
  let account_id := getenv "OANDA_ACCOUNT_ID" in
  if py_not api_key || py_not account_id then
    print rule ;;
    print (Text "OANDA API CREDENTIALS REQUIRED") ;;
    print rule ;;
    print (Text "") ;;
    print (Text "Please set the following environment variables:") ;;
    print (Text "  export OANDA_API_KEY='your_api_key'") ;;
    print (Text "  export OANDA_ACCOUNT_ID='your_account_id'") ;;
    print (Text "") ;;
    print (Text "Or configure them as GitHub Secrets and run via GitHub Actions.") ;;
    print rule ;;
    ret false
  else
    ret true.

(** The local variables the asset loop updates (lines 76-79). *)
Record locals : Type := mkLocals {
  all_results : list AssetSummary.t;
  total_trades_all : Z;
  total_wins_all : Z;
  total_r_all : Q
}.

Definition initial_locals : locals := mkLocals [] 0 0 0%Q.

(** [t.get('rr', 0)]. *)
Definition rr_of (t : Trade.t) : Q := get (Trade.rr t) 0%Q.

(** Line 93: [sum(t.get('rr', 0) for t in trades) if trades else 0]. *)
Definition total_r_of (trades : list Trade.t) : Q :=
  match trades with
  | [] => 0%Q
  | _ :: _ => sum_Q (map rr_of trades)
  end.

(** Line 110: [sum(1 for t in trades if t.get('rr', 0) > 0)]. *)
Definition wins_of (trades : list Trade.t) : Z :=
  sum_Z (map (fun _ => 1) (filter (fun t => Qgtb (rr_of t) 0%Q) trades)).

(** Lines 95-107: the entry appended to [all_results]. *)
Definition summary_of (asset : string) (result : SimulationResult.t) : AssetSummary.t :=
  let total_trades := get (SimulationResult.total_trades result) 0 in
  let win_rate := get (SimulationResult.win_rate result) 0%Q in
  let net_return_pct := get (SimulationResult.net_return_pct result) 0%Q in
  let trades := get (SimulationResult.trades result) [] in
  let total_r := total_r_of trades in
  AssetSummary.mk asset total_trades win_rate total_r net_return_pct
    (get (SimulationResult.max_drawdown_pct result) 0%Q)
    (get (SimulationResult.tp1_trail_hits result) 0)
    (get (SimulationResult.tp2_hits result) 0)
    (get (SimulationResult.tp3_hits result) 0)
    (get (SimulationResult.sl_hits result) 0)
    result.

(** Lines 84-118: one iteration of the asset loop. *)
Definition loop_body (run_backtest : engine) (period : string) (n : nat)
    (st : locals) (ia : nat * string) : M locals :=
  let (i, asset) := ia in
  print (PProgress i n asset) ;;
  try_except
    (result <- call_engine run_backtest asset period ;;
     let total_trades := get (SimulationResult.total_trades result) 0 in
     if 0 <? total_trades then
       let win_rate := get (SimulationResult.win_rate result) 0%Q in
       let trades := get (SimulationResult.trades result) [] in
       let total_r := total_r_of trades in
       let st' :=
         mkLocals (all_results st ++ [summary_of asset result])
                  (total_trades_all st + total_trades)
                  (total_wins_all st + wins_of trades)
                  (total_r_all st + total_r)%Q in
       print (POutcome total_trades win_rate total_r) ;;
       ret st'
     else
       print (Text "No trades") ;;
       ret st)
    (fun e => print (PError (str_exn e)) ;; ret st).

(** Line 74: [FOREX_PAIRS + METALS + INDICES + CRYPTO_ASSETS]. *)
Definition all_assets_of (cfg : Config) : list string :=
  ((FOREX_PAIRS cfg ++ METALS cfg) ++ INDICES cfg) ++ CRYPTO_ASSETS cfg.

(** Line 133. *)
Definition avg_win_rate_of (total_wins_all total_trades_all : Z) : M Q :=
  if 0 <? total_trades_all then
    x <- truediv (inject_Z total_wins_all) (inject_Z total_trades_all) ;;
    ret (x * 100)%Q
  else
    ret 0%Q.

(** Line 134. *)
Definition avg_r_of (total_r_all : Q) (total_trades_all : Z) : M Q :=
  if 0 <? total_trades_all then truediv total_r_all (inject_Z total_trades_all)
  else ret 0%Q.

(** Line 135. *)
Definition total_return_pct_of (cfg : Config) (total_r_all : Q) : Q :=
  (total_r_all * RISK_PER_TRADE_PCT cfg * 100)%Q.

(** Line 136. *)
Definition total_profit_usd_of (cfg : Config) (total_return_pct : Q) : Q :=
  (ACCOUNT_SIZE cfg * (total_return_pct / 100))%Q.

(** Lines 154-157: [hits/total_trades_all*100], not guarded. *)
Definition exit_pct (hits total_trades_all : Z) : M Q :=
  x <- truediv (inject_Z hits) (inject_Z total_trades_all) ;;
  ret (x * 100)%Q.

Definition print_exit (label : string) (hits total_trades_all : Z) : M unit :=
  pct <- exit_pct hits total_trades_all ;;
  print (PExit label hits pct).

(** Line 130. *)
Definition rank (results : list AssetSummary.t) : list AssetSummary.t :=
  sort_by_key_desc AssetSummary.total_r results.

(** [all_results[:10]]. *)
Definition top10 (ranked : list AssetSummary.t) : list AssetSummary.t :=
  firstn 10 ranked.

(** Lines 187-194. *)
Definition by_asset_entry (r : AssetSummary.t) : pyval :=
  VDict [ ("asset", VStr (AssetSummary.asset r));
          ("trades", VInt (AssetSummary.trades r));
          ("win_rate", VFloat (AssetSummary.win_rate r));
          ("total_r", VFloat (AssetSummary.total_r r));
          ("return_pct", VFloat (AssetSummary.return_pct r));
          ("max_dd_pct", VFloat (AssetSummary.max_dd_pct r)) ].

(** The portfolio figures computed after the loop (lines 133-151). *)
Record PortfolioSummary : Type := mkSummary {
  ps_total_trades : Z;
  ps_win_rate : Q;
  ps_total_r : Q;
  ps_avg_r_per_trade : Q;
  ps_net_return_pct : Q;
  ps_net_profit_usd : Q;
  ps_tp1_trail : Z;
  ps_tp2 : Z;
  ps_tp3 : Z;
  ps_sl : Z
}.

(** Lines 164-197. *)
Definition output_data_of (cfg : Config) (period now : string)
    (ranked : list AssetSummary.t) (ps : PortfolioSummary) : pyval :=
  VDict [
    ("period", VStr period);
    ("generated_at", VStr now);
    ("account_size", VFloat (ACCOUNT_SIZE cfg));
    ("risk_per_trade_pct", VFloat (RISK_PER_TRADE_PCT cfg * 100)%Q);
    ("signal_mode", VStr (SIGNAL_MODE cfg));
    ("summary", VDict [
      ("total_assets_tested", VInt (Z.of_nat (List.length (all_assets_of cfg))));
      ("assets_with_trades", VInt (Z.of_nat (List.length ranked)));
      ("total_trades", VInt (ps_total_trades ps));
      ("win_rate", VFloat (ps_win_rate ps));
      ("total_r", VFloat (ps_total_r ps));
      ("avg_r_per_trade", VFloat (ps_avg_r_per_trade ps));
      ("net_return_pct", VFloat (ps_net_return_pct ps));
      ("net_profit_usd", VFloat (ps_net_profit_usd ps));
      ("exit_breakdown", VDict [
        ("tp1_trail", VInt (ps_tp1_trail ps));
        ("tp2", VInt (ps_tp2 ps));
        ("tp3", VInt (ps_tp3 ps));
        ("sl", VInt (ps_sl ps)) ]) ]);
    ("by_asset", VList (map by_asset_entry ranked)) ].

Definition the_period : string := "Jan 2024 - Dec 2024".
Definition artifact_path : string := "backtest_results_2024.json".

(** Lines 83-118: the asset loop. *)
Definition asset_loop (run_backtest : engine) (period : string)
    (all_assets : list string) : M locals :=
  for_each (enumerate all_assets 1)
           (loop_body run_backtest period (List.length all_assets))
           initial_locals.

(** Lines 129-205: what follows the loop when [all_results] is not empty. *)
Definition report (cfg : Config) (enc : json_encoder) (now period : string)
    (st : locals) : M pyval :=
  let all_results := rank (all_results st) in
  let total_trades_all := total_trades_all st in
  let total_wins_all := total_wins_all st in
  let total_r_all := total_r_all st in
  avg_win_rate <- avg_win_rate_of total_wins_all total_trades_all ;;
  avg_r <- avg_r_of total_r_all total_trades_all ;;
  let total_return_pct := total_return_pct_of cfg total_r_all in
  let total_profit_usd := total_profit_usd_of cfg total_return_pct in
  print (PSummaryPeriod period) ;;
  print (PAssetsWithTrades (List.length all_results)) ;;
  print (Text (newline ++ "Combined Performance:")) ;;
  print (PTotalTrades total_trades_all) ;;
  print (PWinRate avg_win_rate) ;;
  print (PTotalR total_r_all) ;;
  print (PAvgR avg_r) ;;
  print (PNetReturn total_return_pct total_profit_usd) ;;
  let total_tp1 := sum_Z (map AssetSummary.tp1_hits all_results) in
  let total_tp2 := sum_Z (map AssetSummary.tp2_hits all_results) in
  let total_tp3 := sum_Z (map AssetSummary.tp3_hits all_results) in
  let total_sl := sum_Z (map AssetSummary.sl_hits all_results) in
  print (Text (newline ++ "Exit Breakdown:")) ;;
  print_exit "TP1+Trail" total_tp1 total_trades_all ;;
  print_exit "TP2" total_tp2 total_trades_all ;;
  print_exit "TP3" total_tp3 total_trades_all ;;
  print_exit "SL" total_sl total_trades_all ;;
  print (Text (newline ++ "Top 10 Performers:")) ;;
  for_each (enumerate (top10 all_results) 1)
    (fun (_ : unit) (ir : nat * AssetSummary.t) =>
       let (i, res) := ir in
       print (PTop i (AssetSummary.asset res) (AssetSummary.trades res)
                   (AssetSummary.win_rate res) (AssetSummary.total_r res)
                   (AssetSummary.return_pct res)))
    tt ;;
  let output_data :=
    output_data_of cfg period now all_results
      (mkSummary total_trades_all avg_win_rate total_r_all avg_r
                 total_return_pct total_profit_usd
                 total_tp1 total_tp2 total_tp3 total_sl) in
  json_dump enc output_data ;;
  print (PSaved artifact_path) ;;
  print rule ;;
  ret output_data.

Definition no_trades_message : string := "No trades found in the specified period.".

(** Lines 60-205.  [now] is the value of [datetime.now().isoformat()] read at
    line 166. *)
Definition run_full_backtest (cfg : Config) (run_backtest : engine)
    (enc : json_encoder) (now : string) : M pyval :=
  let period := the_period in
  print rule ;;
  print (Text "BLUEPRINT TRADER AI - BACKTEST") ;;
  print rule ;;
  print (PPeriod period) ;;
  print (PAccountSize (ACCOUNT_SIZE cfg)) ;;
  print (PRiskPerTrade (RISK_PER_TRADE_PCT cfg * 100)%Q) ;;
  print (PSignalMode (SIGNAL_MODE cfg)) ;;
  print rule ;;
  print (Text "") ;;
  let all_assets := all_assets_of cfg in
  print (PTesting (List.length all_assets)) ;;
  st <- asset_loop run_backtest period all_assets ;;
  print (Text "") ;;
  print rule ;;
  print (Text "SUMMARY") ;;
  print rule ;;
  match all_results st with
  | [] =>
      print (Text no_trades_message) ;;
      ret (VDict [])
  | _ :: _ => report cfg enc now period st
  end.

(** [sys.exit(code)]. *)
Definition sys_exit {A : Type} (code : Z) : M A := raise (SystemExit code).

(** The module run as a script: lines 44-45, then the imports, then
    lines 208-209. *)
Definition script (getenv : environ) (cfg : Config) (run_backtest : engine)
    (enc : json_encoder) (now : string) : M unit :=
  ok <- check_credentials getenv ;;
  (if negb ok then sys_exit 1 else ret tt) ;;
  run_full_backtest cfg run_backtest enc now ;;
  ret tt.

(** The exit status of the interpreter: [0] on normal completion, the code
    of a [SystemExit], [1] on any other uncaught exception. *)
Definition exit_status {A : Type} (r : pyres A) : Z :=
  match r with
  | Return _ => 0
  | Raise (SystemExit code) => code
  | Raise _ => 1
  end.

(** ** A pure reading of the loop and of the report

    The functions below say, without the monad, what the asset loop leaves
    in its local variables and on the console.  The run lemmas further down
    prove that the program computes exactly these. *)

(** The new locals after the iteration for [asset]. *)
Definition step (run_backtest : engine) (period : string)
    (st : locals) (asset : string) : locals :=
  match run_backtest asset period with
  | Ok result =>
      if 0 <? get (SimulationResult.total_trades result) 0 then
        let trades := get (SimulationResult.trades result) [] in
        mkLocals (all_results st ++ [summary_of asset result])
                 (total_trades_all st + get (SimulationResult.total_trades result) 0)
                 (total_wins_all st + wins_of trades)
                 (total_r_all st + total_r_of trades)%Q
      else st
  | Failed _ => st
  end.

Definition loop_locals (run_backtest : engine) (period : string)
    (all_assets : list string) : locals :=
  fold_left (step run_backtest period) all_assets initial_locals.

(** The line printed after the progress prefix of an asset. *)
Definition outcome_line (o : outcome) : line :=
  match o with
  | Ok result =>
      if 0 <? get (SimulationResult.total_trades result) 0 then
        POutcome (get (SimulationResult.total_trades result) 0)
                 (get (SimulationResult.win_rate result) 0%Q)
                 (total_r_of (get (SimulationResult.trades result) []))
      else Text "No trades"
  | Failed msg => PError msg
  end.

Fixpoint loop_lines (run_backtest : engine) (period : string) (n : nat)
    (xs : list (nat * string)) : list line :=
  match xs with
  | [] => []
  | (i, asset) :: rest =>
      PProgress i n asset :: outcome_line (run_backtest asset period)
      :: loop_lines run_backtest period n rest
  end.

(** The AssetSummary records of the assets that qualify, in universe order. *)
Fixpoint qualifying (run_backtest : engine) (period : string)
    (all_assets : list string) : list AssetSummary.t :=
  match all_assets with
  | [] => []
  | asset :: rest =>
      match run_backtest asset period with
      | Ok result =>
          if 0 <? get (SimulationResult.total_trades result) 0
          then summary_of asset result :: qualifying run_backtest period rest
          else qualifying run_backtest period rest
      | Failed _ => qualifying run_backtest period rest
      end
  end.

(** The trade list an AssetSummary was computed from. *)
Definition trades_of (r : AssetSummary.t) : list Trade.t :=
  get (SimulationResult.trades (AssetSummary.full_result r)) [].

(** A winning trade: [rr > 0]. *)
Definition is_win (t : Trade.t) : bool := Qgtb (rr_of t) 0%Q.

(** The portfolio figures of lines 133-151 when no division raises. *)
Definition summary_of_locals (cfg : Config) (st : locals) : PortfolioSummary :=
  let ranked := rank (all_results st) in
  let total_return_pct := total_return_pct_of cfg (total_r_all st) in
  mkSummary (total_trades_all st)
            (inject_Z (total_wins_all st) / inject_Z (total_trades_all st) * 100)%Q
            (total_r_all st)
            (total_r_all st / inject_Z (total_trades_all st))%Q
            total_return_pct
            (total_profit_usd_of cfg total_return_pct)
            (sum_Z (map AssetSummary.tp1_hits ranked))
            (sum_Z (map AssetSummary.tp2_hits ranked))
            (sum_Z (map AssetSummary.tp3_hits ranked))
            (sum_Z (map AssetSummary.sl_hits ranked)).

Definition pct_of (hits total_trades_all : Z) : Q :=
  (inject_Z hits / inject_Z total_trades_all * 100)%Q.

Definition top_line (ir : nat * AssetSummary.t) : line :=
  PTop (fst ir) (AssetSummary.asset (snd ir)) (AssetSummary.trades (snd ir))
       (AssetSummary.win_rate (snd ir)) (AssetSummary.total_r (snd ir))
       (AssetSummary.return_pct (snd ir)).

(** The console output of lines 138-203. *)
Definition report_lines (cfg : Config) (period : string) (st : locals) : list line :=
  let ranked := rank (all_results st) in
  let ps := summary_of_locals cfg st in
  [ PSummaryPeriod period;
    PAssetsWithTrades (List.length ranked);
    Text (newline ++ "Combined Performance:");
    PTotalTrades (ps_total_trades ps);
    PWinRate (ps_win_rate ps);
    PTotalR (ps_total_r ps);
    PAvgR (ps_avg_r_per_trade ps);
    PNetReturn (ps_net_return_pct ps) (ps_net_profit_usd ps);
    Text (newline ++ "Exit Breakdown:");
    PExit "TP1+Trail" (ps_tp1_trail ps) (pct_of (ps_tp1_trail ps) (total_trades_all st));
    PExit "TP2" (ps_tp2 ps) (pct_of (ps_tp2 ps) (total_trades_all st));
    PExit "TP3" (ps_tp3 ps) (pct_of (ps_tp3 ps) (total_trades_all st));
    PExit "SL" (ps_sl ps) (pct_of (ps_sl ps) (total_trades_all st));
    Text (newline ++ "Top 10 Performers:") ]
  ++ map top_line (enumerate (top10 ranked) 1)
  ++ [ PSaved artifact_path; rule ].

(** The console output of lines 64-81. *)
Definition header_lines (cfg : Config) : list line :=
  [ rule; Text "BLUEPRINT TRADER AI - BACKTEST"; rule;
    PPeriod the_period;
    PAccountSize (ACCOUNT_SIZE cfg);
    PRiskPerTrade (RISK_PER_TRADE_PCT cfg * 100)%Q;
    PSignalMode (SIGNAL_MODE cfg);
    rule; Text "";
    PTesting (List.length (all_assets_of cfg)) ].

(** The console output of lines 120-123. *)
Definition summary_banner : list line :=
  [ Text ""; rule; Text "SUMMARY"; rule ].

(** The instructional message of [check_credentials]. *)
Definition credentials_message : list line :=
  [ rule; Text "OANDA API CREDENTIALS REQUIRED"; rule; Text "";
    Text "Please set the following environment variables:";
    Text "  export OANDA_API_KEY='your_api_key'";
    Text "  export OANDA_ACCOUNT_ID='your_account_id'";
    Text "";
    Text "Or configure them as GitHub Secrets and run via GitHub Actions.";
    rule ].

(** A credential is configured when it is present and not empty. *)
Definition configured (getenv : environ) (name : string) : Prop :=
  exists v, getenv name = Some v /\ v <> "".

(** ** Auxiliary notions and sample data *)

(** [desc key a b]: [a] may stand before [b] in an arrangement by
    descending [key]. *)
Definition desc {A : Type} (key : A -> Q) (a b : A) : Prop := (key b <= key a)%Q.

(** The elements of [l] whose key has the value [k], in the order of [l]. *)
Definition with_key {A : Type} (key : A -> Q) (k : Q) (l : list A) : list A :=
  filter (fun a => Qeq_bool (key a) k) l.

(** What links the accumulators to [all_results] at every point of the
    loop. *)
Record loop_inv (st : locals) : Prop := mkInv {
  inv_trades :
    total_trades_all st = sum_Z (map AssetSummary.trades (all_results st));
  inv_wins :
    total_wins_all st =
    sum_Z (map (fun r => wins_of (trades_of r)) (all_results st));
  inv_total_r :
    total_r_all st = sum_Q (map AssetSummary.total_r (all_results st));
  inv_positive :
    Forall (fun r => 0 < AssetSummary.trades r) (all_results st);
  inv_recomputed :
    Forall (fun r => AssetSummary.total_r r = total_r_of (trades_of r))
           (all_results st)
}.

(** [v[k1][k2]]. *)
Definition lookup2 (k1 k2 : string) (v : pyval) : option pyval :=
  match lookup k1 v with
  | Some d => lookup k2 d
  | None => None
  end.

(** The result dict with other engine-reported [win_rate] and
    [net_return_pct] fields. *)
Definition with_engine_metrics (result : SimulationResult.t)
    (win_rate net_return_pct : option Q) : SimulationResult.t :=
  SimulationResult.mk
    (SimulationResult.total_trades result) win_rate net_return_pct
    (SimulationResult.trades result)
    (SimulationResult.max_drawdown_pct result)
    (SimulationResult.tp1_trail_hits result)
    (SimulationResult.tp2_hits result)
    (SimulationResult.tp3_hits result)
    (SimulationResult.sl_hits result).

(** Sample data: the scenario of two assets, one with two trades and one
    with none, and a third asset whose simulation fails. *)
Definition trade (rr : Q) : Trade.t := Trade.mk (Some rr).

Definition empty_result : SimulationResult.t :=
  SimulationResult.mk None None None None None None None None None.

Definition eurusd_result : SimulationResult.t :=
  SimulationResult.mk (Some 2) (Some 50%Q) (Some 1%Q)
    (Some [trade 2%Q; trade (-1)%Q]) None (Some 1) None None (Some 1).

Definition sample_engine : engine :=
  fun asset _ =>
    if String.eqb asset "EURUSD" then Ok eurusd_result
    else if String.eqb asset "BTCUSD" then Failed "no candles"
    else Ok empty_result.

Definition sample_config : Config :=
  mkConfig ["EURUSD"] ["XAUUSD"] [] ["BTCUSD"] 10000%Q (1 # 100)%Q "standard".

Definition quiet_engine : engine := fun _ _ => Ok empty_result.

Definition sample_encoder : json_encoder :=
  mkEncoder (fun _ => "0.0") (fun s => "'" ++ s ++ "'").

(** A result that reports four trades and lists one, a winner. *)
Definition inflated_result : SimulationResult.t :=
  SimulationResult.mk (Some 4) (Some 100%Q) None (Some [trade 1%Q])
    None None None None None.

(** A result that reports three trades and lists none. *)
Definition unlisted_result : SimulationResult.t :=
  SimulationResult.mk (Some 3) None None None None None None None None.

Definition inflated_engine : engine :=
  fun asset _ =>
    if String.eqb asset "EURUSD" then Ok inflated_result else Ok unlisted_result.

(** A number equal to zero. *)
Definition is_zero (v : pyval) : Prop :=
  match v with
  | VInt z => z = 0
  | VFloat q => (q == 0)%Q
  | _ => False
  end.

(** [out] carries a portfolio summary whose win rate and average R per
    trade are both zero. *)
Definition zero_rate_summary (out : pyval) : Prop :=
  exists win_rate avg_r : pyval,
    lookup2 "summary" "win_rate" out = Some win_rate
    /\ lookup2 "summary" "avg_r_per_trade" out = Some avg_r
    /\ is_zero win_rate /\ is_zero avg_r.

(** The universe without the asset [X]. *)
Definition omit (X : string) (assets : list string) : list string :=
  filter (fun a => negb (String.eqb a X)) assets.

(** The configuration whose category lists omit [X]. *)
Definition omit_asset (X : string) (cfg : Config) : Config :=
  mkConfig (omit X (FOREX_PAIRS cfg)) (omit X (METALS cfg))
           (omit X (INDICES cfg)) (omit X (CRYPTO_ASSETS cfg))
           (ACCOUNT_SIZE cfg) (RISK_PER_TRADE_PCT cfg) (SIGNAL_MODE cfg).

(** Lines 135 and 136 on binary64 floats, as Python evaluates them. *)
Definition total_return_pct_binary64 (total_r_all risk_per_trade_pct : float) : float :=
  PrimFloat.mul (PrimFloat.mul total_r_all risk_per_trade_pct) 100%float.

Definition total_profit_usd_binary64 (account_size total_return_pct : float) : float :=
  PrimFloat.mul account_size (PrimFloat.div total_return_pct 100%float).

(** A credential is missing from the environment or empty. *)
Definition missing_or_empty (getenv : environ) (name : string) : Prop :=
  getenv name = None \/ getenv name = Some "".

(** An environment with both credentials, and one that lacks the account. *)
Definition full_environ : environ :=
  fun name =>
    if String.eqb name "OANDA_API_KEY" then Some "key-123"
    else if String.eqb name "OANDA_ACCOUNT_ID" then Some "001-001"
    else None.

Definition partial_environ : environ :=
  fun name => if String.eqb name "OANDA_API_KEY" then Some "key-123" else None.

(** The entries of the ["summary"] dict after ["total_assets_tested"]. *)
Definition summary_rest (ranked : list AssetSummary.t) (ps : PortfolioSummary)
  : list (string * pyval) :=
  [ ("assets_with_trades", VInt (Z.of_nat (List.length ranked)));
    ("total_trades", VInt (ps_total_trades ps));
    ("win_rate", VFloat (ps_win_rate ps));
    ("total_r", VFloat (ps_total_r ps));
    ("avg_r_per_trade", VFloat (ps_avg_r_per_trade ps));
    ("net_return_pct", VFloat (ps_net_return_pct ps));
    ("net_profit_usd", VFloat (ps_net_profit_usd ps));
    ("exit_breakdown", VDict [
      ("tp1_trail", VInt (ps_tp1_trail ps));
      ("tp2", VInt (ps_tp2 ps));
      ("tp3", VInt (ps_tp3 ps));
      ("sl", VInt (ps_sl ps)) ]) ].

(** What [json.dump] writes before the value of ["generated_at"]. *)
Definition artifact_prefix (enc : json_encoder) (period : string) : string :=
  "{" ++ newline_indent 1
  ++ encode_basestring_ascii enc "period" ++ ": " ++ encode_basestring_ascii enc period
  ++ "," ++ newline_indent 1
  ++ encode_basestring_ascii enc "generated_at" ++ ": ".

(** [st] is what the asset loop over [assets] leaves in its locals, from
    whatever world it starts. *)
Definition loop_ends (run_backtest : engine) (period : string)
    (assets : list string) (st : locals) : Prop :=
  forall w : world,
    exists w' : world, asset_loop run_backtest period assets w = (w', Return st).


(** The lines a run adds to the console: those of [after] past those of
    [before]. *)
Definition printed_since (before after : world) : list line :=
  skipn (List.length (stdout before)) (stdout after).

(** An engine whose every simulation fails. *)
Definition failing_engine : engine := fun _ _ => Failed "timeout".

(** A result that lists a winning trade and reports no trade count. *)
Definition phantom_result : SimulationResult.t :=
  SimulationResult.mk None (Some 100%Q) (Some 5%Q) (Some [trade 5%Q])
    None None None None None.

Definition phantom_engine : engine := fun _ _ => Ok phantom_result.

(** An AssetSummary of one reported trade with the given [rr]. *)
Definition sample_summary (asset : string) (rr : Q) : AssetSummary.t :=
  summary_of asset
    (SimulationResult.mk (Some 1) None None (Some [trade rr]) None None None None None).

#[local] Set Warnings "-inexact-float".

(** ** Run lemmas: the program computes the pure reading *)

Lemma bind_print {B : Type} (l : line) (k : unit -> M B) (w : world) :
  bind (print l) k w = k tt (mkWorld (stdout w ++ [l]) (artifact w) (sim_calls w)).
Proof. reflexivity. Qed.

(** A world is kept in constructor form while a run is traced, so that
    the fields read back from it reduce at once. *)
Ltac world_step := cbn [stdout artifact sim_calls].
Ltac print_step := rewrite bind_print; world_step.

Lemma bind_ret {A B : Type} (a : A) (k : A -> M B) (w : world) :
  bind (ret a) k w = k a w.
Proof. reflexivity. Qed.

Lemma loop_body_run (run_backtest : engine) (period : string) (n : nat)
    (st : locals) (i : nat) (asset : string) (w : world) :
  loop_body run_backtest period n st (i, asset) w =
  (mkWorld (stdout w ++ [PProgress i n asset; outcome_line (run_backtest asset period)])
           (artifact w)
           (sim_calls w ++ [(asset, period)]),
   Return (step run_backtest period st asset)).
Proof.
  unfold loop_body, step, outcome_line, try_except, call_engine, bind, print, ret.
  simpl.
  destruct (run_backtest asset period) as [result | msg]; simpl.
  - destruct (0 <? get (SimulationResult.total_trades result) 0); simpl;
      now rewrite <- app_assoc.
  - now rewrite <- app_assoc.
Qed.

Lemma for_each_loop (run_backtest : engine) (period : string) (n : nat)
    (assets : list string) :
  forall (k : nat) (st : locals) (w : world),
    for_each (enumerate assets k) (loop_body run_backtest period n) st w =
    (mkWorld (stdout w ++ loop_lines run_backtest period n (enumerate assets k))
             (artifact w)
             (sim_calls w ++ map (fun a => (a, period)) assets),
     Return (fold_left (step run_backtest period) assets st)).
Proof.
  induction assets as [| a rest IH]; intros k st w.
  - simpl. unfold ret. rewrite !app_nil_r. now destruct w.
  - cbn [enumerate for_each loop_lines map fold_left].
    unfold bind at 1. rewrite loop_body_run. rewrite IH. cbn [stdout artifact sim_calls].
    now rewrite <- !app_assoc.
Qed.

Lemma asset_loop_run (run_backtest : engine) (period : string)
    (assets : list string) (w : world) :
  asset_loop run_backtest period assets w =
  (mkWorld (stdout w ++ loop_lines run_backtest period (List.length assets)
                                   (enumerate assets 1))
           (artifact w)
           (sim_calls w ++ map (fun a => (a, period)) assets),
   Return (loop_locals run_backtest period assets)).
Proof. unfold asset_loop, loop_locals. apply for_each_loop. Qed.

(** ** Sums *)

Lemma fold_Zadd_acc (xs : list Z) (a : Z) :
  fold_left Z.add xs a = a + sum_Z xs.
Proof.
  unfold sum_Z. revert a.
  induction xs as [| x xs IH]; intros a; simpl.
  - lia.
  - rewrite IH, (IH x). lia.
Qed.

Lemma sum_Z_cons (x : Z) (xs : list Z) : sum_Z (x :: xs) = x + sum_Z xs.
Proof. unfold sum_Z at 1. simpl. apply fold_Zadd_acc. Qed.

Lemma sum_Z_snoc (xs : list Z) (x : Z) : sum_Z (xs ++ [x]) = sum_Z xs + x.
Proof. unfold sum_Z. now rewrite fold_left_app. Qed.

Lemma sum_Q_snoc (xs : list Q) (x : Q) : sum_Q (xs ++ [x]) = (sum_Q xs + x)%Q.
Proof. unfold sum_Q. now rewrite fold_left_app. Qed.

Lemma fold_Qplus_acc (xs : list Q) (a : Q) :
  (fold_left Qplus xs a == a + sum_Q xs)%Q.
Proof.
  unfold sum_Q. revert a.
  induction xs as [| x xs IH]; intros a; simpl.
  - lra.
  - rewrite IH, (IH (0 + x)%Q). lra.
Qed.

Lemma sum_Q_cons (x : Q) (xs : list Q) : (sum_Q (x :: xs) == x + sum_Q xs)%Q.
Proof. unfold sum_Q at 1. simpl. rewrite fold_Qplus_acc. lra. Qed.

Lemma sum_Q_perm (xs ys : list Q) :
  Permutation xs ys -> (sum_Q xs == sum_Q ys)%Q.
Proof.
  induction 1 as [| x l l' _ IH | x y l | l l' l'' _ IH1 _ IH2].
  - reflexivity.
  - rewrite !sum_Q_cons, IH. reflexivity.
  - rewrite !sum_Q_cons. lra.
  - now rewrite IH1.
Qed.


Lemma sum_Z_ones {A : Type} (xs : list A) :
  sum_Z (map (fun _ => 1) xs) = Z.of_nat (List.length xs).
Proof.
  induction xs as [| x xs IH].
  - reflexivity.
  - cbn [map List.length]. rewrite sum_Z_cons, IH. lia.
Qed.

Lemma wins_of_count (trades : list Trade.t) :
  wins_of trades = Z.of_nat (List.length (filter is_win trades)).
Proof. unfold wins_of. apply sum_Z_ones. Qed.

Lemma total_r_of_sum (trades : list Trade.t) :
  total_r_of trades = sum_Q (map rr_of trades).
Proof. now destruct trades. Qed.

Lemma sum_Z_pos (xs : list Z) :
  Forall (fun x => 0 < x) xs -> xs <> [] -> 0 < sum_Z xs.
Proof.
  intros Hall Hne. destruct xs as [| x xs]; [congruence |].
  clear Hne. revert x Hall.
  induction xs as [| y ys IH]; intros x Hall.
  - inversion Hall; subst. unfold sum_Z. simpl. assumption.
  - rewrite sum_Z_cons. inversion Hall as [| ? ? Hx Hrest]; subst.
    specialize (IH y Hrest). lia.
Qed.

(** ** The loop invariant *)

Lemma loop_inv_initial : loop_inv initial_locals.
Proof. split; simpl; auto. Qed.

Lemma loop_inv_step (run_backtest : engine) (period : string)
    (st : locals) (asset : string) :
  loop_inv st -> loop_inv (step run_backtest period st asset).
Proof.
  intros [Ht Hw Hr Hp Hc]. unfold step.
  destruct (run_backtest asset period) as [result | msg]; [| now split].
  destruct (0 <? get (SimulationResult.total_trades result) 0) eqn:Hpos;
    [| now split].
  apply Z.ltb_lt in Hpos.
  split; cbn [all_results total_trades_all total_wins_all total_r_all].
  - rewrite map_app; cbn [map]. rewrite sum_Z_snoc, <- Ht. reflexivity.
  - rewrite map_app; cbn [map]. rewrite sum_Z_snoc, <- Hw. reflexivity.
  - rewrite map_app; cbn [map]. rewrite sum_Q_snoc, <- Hr. reflexivity.
  - apply Forall_app. split; [assumption |]. constructor; [exact Hpos | constructor].
  - apply Forall_app. split; [assumption |]. constructor; [reflexivity | constructor].
Qed.

Lemma loop_inv_fold (run_backtest : engine) (period : string)
    (assets : list string) :
  forall st, loop_inv st -> loop_inv (fold_left (step run_backtest period) assets st).
Proof.
  induction assets as [| a rest IH]; intros st Hst; simpl.
  - assumption.
  - apply IH. now apply loop_inv_step.
Qed.

Lemma loop_locals_inv (run_backtest : engine) (period : string)
    (assets : list string) :
  loop_inv (loop_locals run_backtest period assets).
Proof. apply loop_inv_fold. exact loop_inv_initial. Qed.

Lemma fold_step_results (run_backtest : engine) (period : string)
    (assets : list string) :
  forall st,
    all_results (fold_left (step run_backtest period) assets st) =
    (all_results st ++ qualifying run_backtest period assets)%list.
Proof.
  induction assets as [| a rest IH]; intros st; simpl.
  - now rewrite app_nil_r.
  - rewrite IH. unfold step.
    destruct (run_backtest a period) as [result | msg]; [| reflexivity].
    destruct (0 <? get (SimulationResult.total_trades result) 0); [| reflexivity].
    cbn [all_results]. now rewrite <- app_assoc.
Qed.

Lemma loop_locals_results (run_backtest : engine) (period : string)
    (assets : list string) :
  all_results (loop_locals run_backtest period assets) =
  qualifying run_backtest period assets.
Proof. unfold loop_locals. now rewrite fold_step_results. Qed.

Lemma inv_trades_positive (st : locals) :
  loop_inv st -> all_results st <> [] -> 0 < total_trades_all st.
Proof.
  intros Hinv Hne. rewrite (inv_trades st Hinv).
  apply sum_Z_pos.
  - apply Forall_map. exact (inv_positive st Hinv).
  - intros Hnil. apply Hne. now apply map_eq_nil in Hnil.
Qed.

Lemma inv_trades_zero (st : locals) :
  loop_inv st -> (total_trades_all st = 0 <-> all_results st = []).
Proof.
  intros Hinv. split.
  - intros Hz. destruct (all_results st) eqn:E; [reflexivity |].
    assert (0 < total_trades_all st) by (apply inv_trades_positive; [assumption | congruence]).
    lia.
  - intros Hnil. rewrite (inv_trades st Hinv), Hnil. reflexivity.
Qed.

(** ** The report *)

Lemma inject_Z_nonzero (t : Z) : 0 < t -> Qeq_bool (inject_Z t) 0 = false.
Proof.
  intros Ht. destruct (Qeq_bool (inject_Z t) 0) eqn:E; [| reflexivity].
  apply Qeq_bool_eq in E. unfold Qeq in E. simpl in E. lia.
Qed.

Lemma truediv_run (a : Q) (t : Z) (w : world) :
  0 < t -> truediv a (inject_Z t) w = (w, Return (a / inject_Z t)%Q).
Proof. intros Ht. unfold truediv. now rewrite inject_Z_nonzero. Qed.

Lemma truediv_zero (a : Q) (w : world) :
  truediv a (inject_Z 0) w = (w, Raise ZeroDivisionError).
Proof. reflexivity. Qed.

Lemma print_exit_run (label : string) (hits t : Z) (w : world) :
  0 < t ->
  print_exit label hits t w =
  (mkWorld (stdout w ++ [PExit label hits (pct_of hits t)]) (artifact w) (sim_calls w),
   Return tt).
Proof.
  intros Ht. unfold print_exit, exit_pct, bind. now rewrite truediv_run.
Qed.

Lemma for_each_top (xs : list (nat * AssetSummary.t)) :
  forall w : world,
    for_each xs
      (fun (_ : unit) (ir : nat * AssetSummary.t) =>
         let (i, res) := ir in
         print (PTop i (AssetSummary.asset res) (AssetSummary.trades res)
                     (AssetSummary.win_rate res) (AssetSummary.total_r res)
                     (AssetSummary.return_pct res)))
      tt w =
    (mkWorld (stdout w ++ map top_line xs) (artifact w) (sim_calls w), Return tt).
Proof.
  induction xs as [| [i res] rest IH]; intros w.
  - simpl. unfold ret. rewrite app_nil_r. now destruct w.
  - cbn [for_each map]. rewrite bind_print, IH. cbn [stdout artifact sim_calls].
    now rewrite <- app_assoc.
Qed.

Lemma bind_return {A B : Type} (c : M A) (k : A -> M B) (w w' : world) (a : A) :
  c w = (w', Return a) -> bind c k w = k a w'.
Proof. intros H. unfold bind. now rewrite H. Qed.

Lemma avg_win_rate_of_run (wins t : Z) (w : world) :
  0 < t ->
  avg_win_rate_of wins t w = (w, Return (inject_Z wins / inject_Z t * 100)%Q).
Proof.
  intros Ht. unfold avg_win_rate_of.
  replace (0 <? t) with true by (symmetry; now apply Z.ltb_lt).
  now rewrite (bind_return _ _ _ _ _ (truediv_run _ _ _ Ht)).
Qed.

Lemma avg_r_of_run (r : Q) (t : Z) (w : world) :
  0 < t -> avg_r_of r t w = (w, Return (r / inject_Z t)%Q).
Proof.
  intros Ht. unfold avg_r_of.
  replace (0 <? t) with true by (symmetry; now apply Z.ltb_lt).
  now apply truediv_run.
Qed.

Lemma report_run (cfg : Config) (enc : json_encoder) (now period : string)
    (st : locals) (w : world) :
  0 < total_trades_all st ->
  report cfg enc now period st w =
  (mkWorld (stdout w ++ report_lines cfg period st)
           (Some (dumps enc 0 (output_data_of cfg period now (rank (all_results st))
                                              (summary_of_locals cfg st))))
           (sim_calls w),
   Return (output_data_of cfg period now (rank (all_results st))
                          (summary_of_locals cfg st))).
Proof.
  intros Hpos. destruct w as [out art calls].
  unfold report, report_lines, summary_of_locals.
  cbn [ps_total_trades ps_win_rate ps_total_r ps_avg_r_per_trade ps_net_return_pct
       ps_net_profit_usd ps_tp1_trail ps_tp2 ps_tp3 ps_sl stdout artifact sim_calls].
  rewrite (bind_return _ _ _ _ _ (avg_win_rate_of_run _ _ _ Hpos)).
  rewrite (bind_return _ _ _ _ _ (avg_r_of_run _ _ _ Hpos)).
  do 9 print_step.
  do 4 (rewrite (bind_return _ _ _ _ _ (print_exit_run _ _ _ _ Hpos)); world_step).
  print_step.
  rewrite (bind_return _ _ _ _ _ (for_each_top _ _)); world_step.
  unfold json_dump, write_file. unfold bind at 1. world_step.
  do 2 print_step. unfold ret.
  rewrite <- !app_assoc. reflexivity.
Qed.

(** ** The whole run *)

Lemma run_full_backtest_run (cfg : Config) (run_backtest : engine)
    (enc : json_encoder) (now : string) (w : world) :
  let assets := all_assets_of cfg in
  let st := loop_locals run_backtest the_period assets in
  let out := output_data_of cfg the_period now (rank (all_results st))
                            (summary_of_locals cfg st) in
  let printed :=
    (stdout w ++ header_lines cfg
       ++ loop_lines run_backtest the_period (List.length assets) (enumerate assets 1)
       ++ summary_banner)%list in
  let calls := (sim_calls w ++ map (fun a => (a, the_period)) assets)%list in
  run_full_backtest cfg run_backtest enc now w =
  match all_results st with
  | [] =>
      (mkWorld (printed ++ [Text no_trades_message]) (artifact w) calls,
       Return (VDict []))
  | _ :: _ =>
      (mkWorld (printed ++ report_lines cfg the_period st)
               (Some (dumps enc 0 out)) calls,
       Return out)
  end.
Proof.
  intros assets st out printed calls. subst printed calls.
  destruct w as [out0 art0 calls0]. world_step.
  unfold run_full_backtest.
  do 10 print_step.
  rewrite (bind_return _ _ _ _ _ (asset_loop_run _ _ _ _)); world_step.
  do 4 print_step.
  fold assets. fold st.
  pose proof (loop_locals_inv run_backtest the_period assets) as Hinv.
  fold st in Hinv.
  unfold header_lines, summary_banner. fold assets.
  destruct (all_results st) as [| r rs] eqn:E.
  - print_step. unfold ret.
    rewrite <- !app_assoc. reflexivity.
  - assert (Hpos : 0 < total_trades_all st)
      by (apply inv_trades_positive; [assumption | congruence]).
    rewrite report_run by assumption. world_step.
    subst out. rewrite <- !app_assoc. rewrite E. reflexivity.
Qed.

(** ** Ranking *)

Section SortByKey.
Context {A : Type}.
Variable key : A -> Q.

Lemma insert_desc_perm (x : A) (l : list A) :
  Permutation (insert_desc key x l) (x :: l).
Proof.
  induction l as [| y rest IH]; simpl.
  - apply Permutation_refl.
  - destruct (Qle_bool (key y) (key x)).
    + apply Permutation_refl.
    + apply Permutation_trans with (y :: x :: rest).
      * now apply perm_skip.
      * apply perm_swap.
Qed.

Lemma sort_by_key_desc_perm (l : list A) :
  Permutation (sort_by_key_desc key l) l.
Proof.
  induction l as [| x rest IH]; simpl.
  - apply perm_nil.
  - apply Permutation_trans with (x :: sort_by_key_desc key rest).
    + apply insert_desc_perm.
    + now apply perm_skip.
Qed.

Lemma insert_desc_sorted (x : A) (l : list A) :
  StronglySorted (desc key) l -> StronglySorted (desc key) (insert_desc key x l).
Proof.
  induction l as [| y rest IH]; intros Hs; simpl.
  - constructor; constructor.
  - inversion Hs as [| ? ? Hrest Hall]; subst.
    destruct (Qle_bool (key y) (key x)) eqn:E.
    + apply Qle_bool_iff in E.
      constructor; [assumption |].
      constructor; [exact E |].
      apply Forall_forall. intros z Hz.
      rewrite Forall_forall in Hall. specialize (Hall z Hz).
      unfold desc in *. now apply Qle_trans with (key y).
    + constructor; [now apply IH |].
      apply Forall_forall. intros z Hz.
      apply (Permutation_in _ (insert_desc_perm x rest)) in Hz.
      destruct Hz as [Hxz | Hz].
      * subst z. unfold desc.
        destruct (Qlt_le_dec (key y) (key x)) as [Hlt | Hle]; [| exact Hle].
        apply Qlt_le_weak, Qle_bool_iff in Hlt. congruence.
      * rewrite Forall_forall in Hall. now apply Hall.
Qed.

Lemma sort_by_key_desc_sorted (l : list A) :
  StronglySorted (desc key) (sort_by_key_desc key l).
Proof.
  induction l as [| x rest IH]; simpl.
  - constructor.
  - now apply insert_desc_sorted.
Qed.

Lemma insert_desc_with_key (k : Q) (x : A) (l : list A) :
  with_key key k (insert_desc key x l) = with_key key k (x :: l).
Proof.
  unfold with_key.
  induction l as [| y rest IH]; simpl.
  - reflexivity.
  - destruct (Qle_bool (key y) (key x)) eqn:E; [reflexivity |].
    simpl. rewrite IH. simpl.
    destruct (Qeq_bool (key x) k) eqn:Ex; [| reflexivity].
    destruct (Qeq_bool (key y) k) eqn:Ey; [| reflexivity].
    apply Qeq_bool_eq in Ex, Ey.
    assert (Hle : (key y <= key x)%Q) by (rewrite Ex, Ey; apply Qle_refl).
    apply Qle_bool_iff in Hle. congruence.
Qed.

Lemma sort_by_key_desc_stable (k : Q) (l : list A) :
  with_key key k (sort_by_key_desc key l) = with_key key k l.
Proof.
  induction l as [| x rest IH]; simpl.
  - reflexivity.
  - rewrite insert_desc_with_key. unfold with_key in *. simpl. now rewrite IH.
Qed.
(** The arrangement is determined by the three properties: two
    descending lists that hold, for every key value, the same elements
    in the same order are equal.  So any stable descending sort, the one
    of [list.sort] included, returns what [sort_by_key_desc] returns. *)
Lemma with_key_head (x : A) (l : list A) :
with_key key (key x) (x :: l) = x :: with_key key (key x) l.
Proof. unfold with_key. simpl. now rewrite Qeq_bool_refl. Qed.

Lemma with_key_In (k : Q) (x : A) (l : list A) :
In x (with_key key k l) -> In x l.
Proof. unfold with_key. intros H. now apply filter_In in H. Qed.

Lemma sorted_head_max (x y : A) (l : list A) :
StronglySorted (desc key) (x :: l) -> In y (x :: l) -> (key y <= key x)%Q.
Proof.
intros Hs [<- | Hin].
- apply Qle_refl.
- inversion Hs as [| ? ? _ Hall]; subst.
  rewrite Forall_forall in Hall. now apply Hall.
Qed.

Lemma head_in_other (x y : A) (t1 t2 : list A) :
(forall k, with_key key k (x :: t1) = with_key key k (y :: t2)) ->
In x (y :: t2).
Proof.
intros Hk. apply with_key_In with (key x).
rewrite <- Hk, with_key_head. now left.
Qed.

Lemma stable_descending_unique (l1 : list A) :
forall l2 : list A,
  StronglySorted (desc key) l1 ->
  StronglySorted (desc key) l2 ->
  (forall k, with_key key k l1 = with_key key k l2) ->
  l1 = l2.
Proof.
induction l1 as [| x t1 IH]; intros l2 H1 H2 Hk.
- destruct l2 as [| y t2]; [reflexivity |].
  specialize (Hk (key y)). rewrite with_key_head in Hk. discriminate.
- destruct l2 as [| y t2].
  { specialize (Hk (key x)). rewrite with_key_head in Hk. discriminate. }
  assert (Hxy : (key y == key x)%Q).
  { apply Qle_antisym.
    - apply (sorted_head_max x y t1 H1).
      apply (head_in_other y x t2 t1). intros k. symmetry. apply Hk.
    - apply (sorted_head_max y x t2 H2).
      now apply (head_in_other x y t1 t2). }
  assert (x = y).
  { pose proof (Hk (key x)) as E. rewrite with_key_head in E.
    unfold with_key in E. simpl in E.
    rewrite (Qeq_eq_bool _ _ Hxy) in E. now inversion E. }
  subst y. f_equal.
  apply IH.
  + now inversion H1.
  + now inversion H2.
  + intros k. specialize (Hk k). unfold with_key in *. simpl in Hk.
    destruct (Qeq_bool (key x) k); [now inversion Hk | exact Hk].
Qed.

Lemma sort_by_key_desc_unique (l l' : list A) :
StronglySorted (desc key) l' ->
(forall k, with_key key k l' = with_key key k l) ->
l' = sort_by_key_desc key l.
Proof.
intros Hs Hk. apply stable_descending_unique.
- assumption.
- apply sort_by_key_desc_sorted.
- intros k. now rewrite sort_by_key_desc_stable.
Qed.
End SortByKey.

Lemma top10_short (l : list AssetSummary.t) :
  (List.length l < 10)%nat -> top10 l = l.
Proof. intros H. unfold top10. apply firstn_all2. lia. Qed.

Lemma top10_length (l : list AssetSummary.t) :
  List.length (top10 l) = Nat.min 10 (List.length l).
Proof. unfold top10. apply length_firstn. Qed.

(** C3.  The ranking step (line 130) returns a permutation of the
    AssetSummary sequence it is given, arranged by [total_r] in descending
    order, and it is stable: for every value of [total_r], the records with
    that value appear in the ranked sequence in the order they had in the
    input, which is the order of the resolved universe.  The top-K view of
    line 160 is the first 10 entries of the ranked sequence, and all of
    them when fewer than 10 assets qualify. *)
Theorem C3_rank_stable_descending (results : list AssetSummary.t) :
  Permutation (rank results) results
  /\ StronglySorted (desc AssetSummary.total_r) (rank results)
  /\ (forall k : Q,
        with_key AssetSummary.total_r k (rank results) =
        with_key AssetSummary.total_r k results)
  /\ top10 (rank results) = firstn 10 (rank results)
  /\ List.length (top10 (rank results)) = Nat.min 10 (List.length results)
  /\ ((List.length results < 10)%nat -> top10 (rank results) = rank results).
Proof.
  unfold rank. repeat split.
  - apply sort_by_key_desc_perm.
  - apply sort_by_key_desc_sorted.
  - intros k. apply sort_by_key_desc_stable.
  - rewrite top10_length.
    now rewrite (Permutation_length (sort_by_key_desc_perm AssetSummary.total_r results)).
  - intros H. apply top10_short.
    now rewrite (Permutation_length (sort_by_key_desc_perm AssetSummary.total_r results)).
Qed.

(** ** Aggregation *)

Lemma wins_across_assets (rs : list AssetSummary.t) :
  sum_Z (map (fun r => wins_of (trades_of r)) rs) =
  Z.of_nat (List.length (filter is_win (flat_map trades_of rs))).
Proof.
  induction rs as [| r rest IH].
  - reflexivity.
  - cbn [map flat_map]. rewrite sum_Z_cons, IH, wins_of_count.
    rewrite filter_app, length_app. lia.
Qed.

Lemma run_with_trades (cfg : Config) (run_backtest : engine)
    (enc : json_encoder) (now : string) (w : world) :
  let st := loop_locals run_backtest the_period (all_assets_of cfg) in
  all_results st <> [] ->
  exists w',
    run_full_backtest cfg run_backtest enc now w =
    (w', Return (output_data_of cfg the_period now (rank (all_results st))
                                (summary_of_locals cfg st))).
Proof.
  intros st Hne. rewrite run_full_backtest_run. fold st.
  destruct (all_results st) as [| r rs]; [congruence |].
  eexists. reflexivity.
Qed.

(** C5.  When the asset loop ends, [all_results] holds the AssetSummary
    records of the qualifying assets in universe order, and the running
    totals agree with them: [total_r_all] is the sum of their [total_r]
    values, [total_wins_all] is the number of trades with [rr > 0] in the
    trade lists of the qualifying assets, and [total_trades_all] is the sum
    of their trade counts.  The sum of [total_r] over the ranked sequence has
    the same value, and when at least one asset qualifies the returned
    summary reports exactly these totals. *)
Theorem C5_portfolio_aggregates (cfg : Config) (run_backtest : engine)
    (enc : json_encoder) (now : string) (w : world) :
  exists (w1 : world) (st : locals),
    asset_loop run_backtest the_period (all_assets_of cfg) w = (w1, Return st)
    /\ all_results st = qualifying run_backtest the_period (all_assets_of cfg)
    /\ total_r_all st = sum_Q (map AssetSummary.total_r (all_results st))
    /\ total_wins_all st =
       Z.of_nat (List.length (filter is_win (flat_map trades_of (all_results st))))
    /\ total_trades_all st = sum_Z (map AssetSummary.trades (all_results st))
    /\ (total_r_all st == sum_Q (map AssetSummary.total_r (rank (all_results st))))%Q
    /\ (all_results st <> [] ->
        exists (w' : world) (out : pyval),
          run_full_backtest cfg run_backtest enc now w = (w', Return out)
          /\ lookup2 "summary" "total_r" out = Some (VFloat (total_r_all st))
          /\ lookup2 "summary" "total_trades" out = Some (VInt (total_trades_all st))).
Proof.
  rewrite asset_loop_run.
  set (st := loop_locals run_backtest the_period (all_assets_of cfg)).
  pose proof (loop_locals_inv run_backtest the_period (all_assets_of cfg)) as Hinv.
  fold st in Hinv.
  eexists. exists st. split; [reflexivity |].
  split; [apply loop_locals_results |].
  split; [exact (inv_total_r st Hinv) |].
  split; [rewrite (inv_wins st Hinv); apply wins_across_assets |].
  split; [exact (inv_trades st Hinv) |].
  split.
  - rewrite (inv_total_r st Hinv). apply sum_Q_perm.
    apply Permutation_map, Permutation_sym. apply sort_by_key_desc_perm.
  - intros Hne.
    destruct (run_with_trades cfg run_backtest enc now w Hne) as [w' Hrun].
    exists w'. eexists. split; [exact Hrun |]. split; reflexivity.
Qed.

(** C4.  For an asset whose result reports [total_trades > 0], the loop
    appends an AssetSummary whose [total_r] is the sum of the [rr] values of
    the result's trade list, an absent [rr] counting as [0] and an absent
    list as the empty one.  Its [win_rate] and [return_pct] are the result's
    [win_rate] and [net_return_pct] as reported (or [0] when absent), and
    [total_r] does not depend on them: replacing the two engine-reported
    fields by any others leaves [total_r] as it is. *)
Theorem C4_total_r_recomputed (run_backtest : engine) (period : string) (n i : nat)
    (st : locals) (asset : string) (w : world) (result : SimulationResult.t) :
  run_backtest asset period = Ok result ->
  0 < get (SimulationResult.total_trades result) 0 ->
  exists (w' : world) (st' : locals),
    loop_body run_backtest period n st (i, asset) w = (w', Return st')
    /\ all_results st' = (all_results st ++ [summary_of asset result])%list
    /\ AssetSummary.total_r (summary_of asset result) =
       sum_Q (map (fun t => get (Trade.rr t) 0%Q)
                  (get (SimulationResult.trades result) []))
    /\ AssetSummary.win_rate (summary_of asset result) =
       get (SimulationResult.win_rate result) 0%Q
    /\ AssetSummary.return_pct (summary_of asset result) =
       get (SimulationResult.net_return_pct result) 0%Q
    /\ (forall win_rate net_return_pct : option Q,
          AssetSummary.total_r
            (summary_of asset (with_engine_metrics result win_rate net_return_pct)) =
          AssetSummary.total_r (summary_of asset result)).
Proof.
  intros Hok Hpos. rewrite loop_body_run.
  eexists. eexists. split; [reflexivity |].
  unfold step. rewrite Hok.
  replace (0 <? get (SimulationResult.total_trades result) 0) with true
    by (symmetry; now apply Z.ltb_lt).
  split; [reflexivity |].
  split; [apply total_r_of_sum |].
  repeat split.
Qed.

Lemma C4_witness :
  exists (w' : world) (st' : locals),
    loop_body sample_engine the_period 3 initial_locals (1%nat, "EURUSD") initial_world
    = (w', Return st')
    /\ all_results st' = (all_results initial_locals ++ [summary_of "EURUSD" eurusd_result])%list
    /\ AssetSummary.total_r (summary_of "EURUSD" eurusd_result) =
       sum_Q (map (fun t => get (Trade.rr t) 0%Q)
                  (get (SimulationResult.trades eurusd_result) []))
    /\ AssetSummary.win_rate (summary_of "EURUSD" eurusd_result) =
       get (SimulationResult.win_rate eurusd_result) 0%Q
    /\ AssetSummary.return_pct (summary_of "EURUSD" eurusd_result) =
       get (SimulationResult.net_return_pct eurusd_result) 0%Q
    /\ (forall win_rate net_return_pct : option Q,
          AssetSummary.total_r
            (summary_of "EURUSD" (with_engine_metrics eurusd_result win_rate net_return_pct)) =
          AssetSummary.total_r (summary_of "EURUSD" eurusd_result)).
Proof.
  apply (C4_total_r_recomputed sample_engine the_period 3 1 initial_locals
           "EURUSD" initial_world eurusd_result).
  - reflexivity.
  - reflexivity.
Defined.

Lemma run_win_rate (cfg : Config) (run_backtest : engine)
    (enc : json_encoder) (now : string) (w : world) :
  let st := loop_locals run_backtest the_period (all_assets_of cfg) in
  all_results st <> [] ->
  exists (w' : world) (out : pyval),
    run_full_backtest cfg run_backtest enc now w = (w', Return out)
    /\ lookup2 "summary" "win_rate" out =
       Some (VFloat (inject_Z (Z.of_nat (List.length
                       (filter is_win (flat_map trades_of (all_results st)))))
                     / inject_Z (sum_Z (map AssetSummary.trades (all_results st)))
                     * 100)%Q).
Proof.
  intros st Hne.
  destruct (run_with_trades cfg run_backtest enc now w Hne) as [w' Hrun].
  exists w'. eexists. split; [exact Hrun |].
  pose proof (loop_locals_inv run_backtest the_period (all_assets_of cfg)) as Hinv.
  fold st in Hinv.
  unfold lookup2, summary_of_locals. cbn.
  now rewrite <- wins_across_assets, <- (inv_wins st Hinv), <- (inv_trades st Hinv).
Qed.

(** C10.  A result that reports [total_trades > 0] with an empty or absent
    trade list still qualifies: the loop appends its AssetSummary with
    [total_r = 0], adds the reported [total_trades] to [total_trades_all]
    and adds no win to [total_wins_all].  The portfolio win rate is the
    number of winning trades counted in the trade lists over the sum of the
    engine-reported trade counts, and the two disagree on a run where the
    results report more trades than they list: there ten reported trades
    against a single listed trade, a winner, give a win rate of 10 percent. *)
Theorem C10_reported_count_without_trades (run_backtest : engine) (period : string)
    (n i : nat) (st : locals) (asset : string) (w : world)
    (result : SimulationResult.t) :
  run_backtest asset period = Ok result ->
  0 < get (SimulationResult.total_trades result) 0 ->
  get (SimulationResult.trades result) [] = [] ->
  (exists (w' : world) (st' : locals),
     loop_body run_backtest period n st (i, asset) w = (w', Return st')
     /\ all_results st' = (all_results st ++ [summary_of asset result])%list
     /\ AssetSummary.total_r (summary_of asset result) = 0%Q
     /\ AssetSummary.trades (summary_of asset result) =
        get (SimulationResult.total_trades result) 0
     /\ total_trades_all st' =
        total_trades_all st + get (SimulationResult.total_trades result) 0
     /\ total_wins_all st' = total_wins_all st
     /\ (total_r_all st' == total_r_all st)%Q)
  /\ (forall (cfg : Config) (engine' : engine) (enc : json_encoder) (now : string)
             (w0 : world),
        let st0 := loop_locals engine' the_period (all_assets_of cfg) in
        all_results st0 <> [] ->
        exists (w' : world) (out : pyval),
          run_full_backtest cfg engine' enc now w0 = (w', Return out)
          /\ lookup2 "summary" "win_rate" out =
             Some (VFloat (inject_Z (Z.of_nat (List.length
                             (filter is_win (flat_map trades_of (all_results st0)))))
                           / inject_Z (sum_Z (map AssetSummary.trades (all_results st0)))
                           * 100)%Q))
  /\ (exists (w' : world) (out : pyval) (rate : Q),
        run_full_backtest sample_config inflated_engine sample_encoder "" initial_world
        = (w', Return out)
        /\ lookup2 "summary" "win_rate" out = Some (VFloat rate)
        /\ (rate == 100 * (1 # 10))%Q
        /\ lookup2 "summary" "total_trades" out = Some (VInt 10)
        /\ flat_map trades_of
             (qualifying inflated_engine the_period (all_assets_of sample_config))
           = [trade 1%Q]).
Proof.
  intros Hok Hpos Hnone. split; [| split].
  - rewrite loop_body_run. eexists. eexists. split; [reflexivity |].
    unfold step. rewrite Hok.
    replace (0 <? get (SimulationResult.total_trades result) 0) with true
      by (symmetry; now apply Z.ltb_lt).
    cbn [all_results total_trades_all total_wins_all total_r_all].
    unfold summary_of. cbn [AssetSummary.total_r AssetSummary.trades].
    rewrite Hnone. cbn [total_r_of wins_of filter map].
    repeat split.
    + unfold wins_of, sum_Z. simpl. lia.
    + lra.
  - intros cfg engine' enc now w0. apply run_win_rate.
  - eexists. eexists. eexists. split; [vm_compute; reflexivity |].
    split; [reflexivity |]. split; [reflexivity |]. split; reflexivity.
Qed.

Lemma C10_witness :
  (exists (w' : world) (st' : locals),
     loop_body inflated_engine the_period 3 initial_locals (2%nat, "XAUUSD") initial_world
     = (w', Return st')
     /\ all_results st' = (all_results initial_locals ++ [summary_of "XAUUSD" unlisted_result])%list
     /\ AssetSummary.total_r (summary_of "XAUUSD" unlisted_result) = 0%Q
     /\ AssetSummary.trades (summary_of "XAUUSD" unlisted_result) =
        get (SimulationResult.total_trades unlisted_result) 0
     /\ total_trades_all st' =
        total_trades_all initial_locals + get (SimulationResult.total_trades unlisted_result) 0
     /\ total_wins_all st' = total_wins_all initial_locals
     /\ (total_r_all st' == total_r_all initial_locals)%Q)
  /\ (forall (cfg : Config) (engine' : engine) (enc : json_encoder) (now : string)
             (w0 : world),
        let st0 := loop_locals engine' the_period (all_assets_of cfg) in
        all_results st0 <> [] ->
        exists (w' : world) (out : pyval),
          run_full_backtest cfg engine' enc now w0 = (w', Return out)
          /\ lookup2 "summary" "win_rate" out =
             Some (VFloat (inject_Z (Z.of_nat (List.length
                             (filter is_win (flat_map trades_of (all_results st0)))))
                           / inject_Z (sum_Z (map AssetSummary.trades (all_results st0)))
                           * 100)%Q))
  /\ (exists (w' : world) (out : pyval) (rate : Q),
        run_full_backtest sample_config inflated_engine sample_encoder "" initial_world
        = (w', Return out)
        /\ lookup2 "summary" "win_rate" out = Some (VFloat rate)
        /\ (rate == 100 * (1 # 10))%Q
        /\ lookup2 "summary" "total_trades" out = Some (VInt 10)
        /\ flat_map trades_of
             (qualifying inflated_engine the_period (all_assets_of sample_config))
           = [trade 1%Q]).
Proof.
  apply (C10_reported_count_without_trades inflated_engine the_period 3 2
           initial_locals "XAUUSD" initial_world unlisted_result).
  - reflexivity.
  - reflexivity.
  - reflexivity.
Defined.

(** ** The run without trades, and division by zero *)

Lemma asset_loop_locals (run_backtest : engine) (period : string)
    (assets : list string) (w w1 : world) (st : locals) :
  asset_loop run_backtest period assets w = (w1, Return st) ->
  st = loop_locals run_backtest period assets.
Proof. rewrite asset_loop_run. intros H. now inversion H. Qed.

Lemma run_without_trades (cfg : Config) (run_backtest : engine)
    (enc : json_encoder) (now : string) (w : world) :
  all_results (loop_locals run_backtest the_period (all_assets_of cfg)) = [] ->
  exists printed : list line,
    run_full_backtest cfg run_backtest enc now w =
    (mkWorld (stdout w ++ printed ++ [Text no_trades_message])
             (artifact w)
             (sim_calls w ++ map (fun a => (a, the_period)) (all_assets_of cfg)),
     Return (VDict [])).
Proof.
  intros Hnil. rewrite run_full_backtest_run. rewrite Hnil.
  exists (header_lines cfg
            ++ loop_lines run_backtest the_period (List.length (all_assets_of cfg))
                          (enumerate (all_assets_of cfg) 1)
            ++ summary_banner)%list.
  rewrite <- !app_assoc. reflexivity.
Qed.

(** C1 (as the code has it).  On a run in which no asset yields trades
    ([total_trades_all = 0] when the loop ends), [run_full_backtest] does
    not raise: it prints ["No trades found in the specified period."] as
    its last line and returns the empty dict.  The empty dict carries no
    portfolio summary, so no [win_rate] or [avg_r_per_trade] value is
    produced, and no artifact is written. *)
Theorem C1_no_trades_returns_empty (cfg : Config) (run_backtest : engine)
    (enc : json_encoder) (now : string) (w w0 w1 : world) (st : locals) :
  asset_loop run_backtest the_period (all_assets_of cfg) w0 = (w1, Return st) ->
  total_trades_all st = 0 ->
  exists (w' : world) (printed : list line),
    run_full_backtest cfg run_backtest enc now w = (w', Return (VDict []))
    /\ stdout w' = (stdout w ++ printed ++ [Text no_trades_message])%list
    /\ artifact w' = artifact w
    /\ lookup "summary" (VDict []) = None
    /\ ~ zero_rate_summary (VDict []).
Proof.
  intros Hloop Hzero. apply asset_loop_locals in Hloop. subst st.
  apply inv_trades_zero in Hzero; [| apply loop_locals_inv].
  destruct (run_without_trades cfg run_backtest enc now w Hzero) as [printed Hrun].
  eexists. exists printed. split; [exact Hrun |].
  repeat split.
  intros (wr & ar & Hwr & _). discriminate Hwr.
Qed.

Lemma C1_witness :
  exists (w' : world) (printed : list line),
    run_full_backtest sample_config quiet_engine sample_encoder "" initial_world
    = (w', Return (VDict []))
    /\ stdout w' = (stdout initial_world ++ printed ++ [Text no_trades_message])%list
    /\ artifact w' = artifact initial_world
    /\ lookup "summary" (VDict []) = None
    /\ ~ zero_rate_summary (VDict []).
Proof.
  apply (C1_no_trades_returns_empty sample_config quiet_engine sample_encoder ""
           initial_world initial_world
           (fst (asset_loop quiet_engine the_period (all_assets_of sample_config)
                            initial_world))
           initial_locals).
  - reflexivity.
  - reflexivity.
Defined.

(** C1 as stated fails: on the universe of [sample_config] with an engine
    that finds no trade for any asset, [total_trades_all] is [0] when the
    loop ends, and the run returns no value that carries a summary with
    zero rates. *)
Lemma C1_counterexample :
  (exists (w1 : world) (st : locals),
     asset_loop quiet_engine the_period (all_assets_of sample_config) initial_world
     = (w1, Return st)
     /\ total_trades_all st = 0)
  /\ ~ (exists (w' : world) (out : pyval),
          run_full_backtest sample_config quiet_engine sample_encoder "" initial_world
          = (w', Return out)
          /\ zero_rate_summary out).
Proof.
  split.
  - eexists. eexists. split; reflexivity.
  - intros (w' & out & Hrun & (wr & ar & Hwr & _)).
    vm_compute in Hrun. inversion Hrun; subst. discriminate Hwr.
Qed.

Lemma exit_pct_unguarded (hits : Z) (w : world) :
  exit_pct hits 0 w = (w, Raise ZeroDivisionError).
Proof. reflexivity. Qed.

Lemma run_returns (cfg : Config) (run_backtest : engine)
    (enc : json_encoder) (now : string) (w : world) :
  exists (w' : world) (out : pyval),
    run_full_backtest cfg run_backtest enc now w = (w', Return out)
    /\ sim_calls w' =
       (sim_calls w ++ map (fun a => (a, the_period)) (all_assets_of cfg))%list.
Proof.
  rewrite run_full_backtest_run.
  destruct (all_results _); eexists; eexists; split; reflexivity.
Qed.

(** C2.  No run divides by zero.  The two guarded quotients (lines 133
    and 134) give [0] when [total_trades_all] is [0].  The exit-breakdown
    percentages (lines 154-157) divide by [total_trades_all] without a
    guard, and they are reached only when [all_results] is not empty: when
    the loop ends either [all_results] is empty, and the run returns before
    them, or [total_trades_all] is positive.  So every run of
    [run_full_backtest] returns a value and raises nothing, a
    [ZeroDivisionError] included. *)
Theorem C2_no_division_by_zero (cfg : Config) (run_backtest : engine)
    (enc : json_encoder) (now : string) (w : world) :
  (forall (total_wins_all : Z) (w0 : world),
      avg_win_rate_of total_wins_all 0 w0 = (w0, Return 0%Q))
  /\ (forall (total_r_all : Q) (w0 : world),
        avg_r_of total_r_all 0 w0 = (w0, Return 0%Q))
  /\ (exists (w1 : world) (st : locals),
        asset_loop run_backtest the_period (all_assets_of cfg) w = (w1, Return st)
        /\ (all_results st = [] <-> total_trades_all st = 0)
        /\ (all_results st <> [] -> 0 < total_trades_all st)
        /\ (all_results st <> [] ->
            forall (label : string) (hits : Z) (w0 : world),
            exists w0' : world,
              print_exit label hits (total_trades_all st) w0 = (w0', Return tt)))
  /\ (exists (w' : world) (out : pyval),
        run_full_backtest cfg run_backtest enc now w = (w', Return out)
        /\ (total_trades_all (loop_locals run_backtest the_period (all_assets_of cfg)) = 0
            -> out = VDict [])).
Proof.
  split; [reflexivity |]. split; [reflexivity |]. split.
  - rewrite asset_loop_run.
    set (st := loop_locals run_backtest the_period (all_assets_of cfg)).
    pose proof (loop_locals_inv run_backtest the_period (all_assets_of cfg)) as Hinv.
    fold st in Hinv.
    eexists. exists st. split; [reflexivity |].
    split; [symmetry; now apply inv_trades_zero |].
    split; [now apply inv_trades_positive |].
    intros Hne label hits w0. eexists. apply print_exit_run.
    now apply inv_trades_positive.
  - rewrite run_full_backtest_run.
    pose proof (loop_locals_inv run_backtest the_period (all_assets_of cfg)) as Hinv.
    destruct (all_results _) as [| r rs] eqn:E.
    + eexists. eexists. split; reflexivity.
    + eexists. eexists. split; [reflexivity |].
      intros Hz. apply inv_trades_zero in Hz; [| assumption]. congruence.
Qed.

(** ** Isolation of a failing asset *)

Lemma all_assets_omit (X : string) (cfg : Config) :
  all_assets_of (omit_asset X cfg) = omit X (all_assets_of cfg).
Proof. unfold all_assets_of, omit_asset, omit. simpl. now rewrite !filter_app. Qed.

Lemma enumerate_app {X : Type} (xs ys : list X) :
  forall k : nat,
    enumerate (xs ++ ys) k = (enumerate xs k ++ enumerate ys (k + List.length xs))%list.
Proof.
  induction xs as [| x xs IH]; intros k; simpl.
  - now rewrite Nat.add_0_r.
  - rewrite IH. now rewrite Nat.add_succ_r.
Qed.

Lemma loop_lines_app (run_backtest : engine) (period : string) (n : nat)
    (xs ys : list (nat * string)) :
  loop_lines run_backtest period n (xs ++ ys) =
  (loop_lines run_backtest period n xs ++ loop_lines run_backtest period n ys)%list.
Proof.
  induction xs as [| [i a] xs IH]; simpl.
  - reflexivity.
  - now rewrite IH.
Qed.

Lemma failed_asset_reported (run_backtest : engine) (period : string) (n k : nat)
    (assets : list string) (X msg : string) :
  run_backtest X period = Failed msg ->
  In X assets ->
  exists (i : nat) (pre post : list line),
    loop_lines run_backtest period n (enumerate assets k) =
    (pre ++ [PProgress i n X; PError msg] ++ post)%list.
Proof.
  intros Hfail Hin.
  destruct (in_split _ _ Hin) as (l1 & l2 & ->).
  rewrite enumerate_app, loop_lines_app. cbn [enumerate loop_lines].
  rewrite Hfail. cbn [outcome_line].
  exists (k + List.length l1)%nat, (loop_lines run_backtest period n (enumerate l1 k)).
  eexists. reflexivity.
Qed.

Lemma fold_step_omit (run_backtest : engine) (period : string) (X msg : string)
    (assets : list string) :
  run_backtest X period = Failed msg ->
  forall st : locals,
    fold_left (step run_backtest period) (omit X assets) st =
    fold_left (step run_backtest period) assets st.
Proof.
  intros Hfail.
  induction assets as [| a rest IH]; intros st; simpl.
  - reflexivity.
  - destruct (String.eqb_spec a X) as [-> | Hne]; simpl.
    + rewrite IH. unfold step at 3. now rewrite Hfail.
    + apply IH.
Qed.

Lemma loop_locals_omit (run_backtest : engine) (period : string) (X msg : string)
    (assets : list string) :
  run_backtest X period = Failed msg ->
  loop_locals run_backtest period (omit X assets) =
  loop_locals run_backtest period assets.
Proof. intros Hfail. unfold loop_locals. now apply fold_step_omit with msg. Qed.

Lemma qualifying_succeeded (run_backtest : engine) (period : string)
    (assets : list string) (r : AssetSummary.t) :
  In r (qualifying run_backtest period assets) ->
  exists result : SimulationResult.t,
    In (AssetSummary.asset r) assets
    /\ run_backtest (AssetSummary.asset r) period = Ok result
    /\ r = summary_of (AssetSummary.asset r) result.
Proof.
  induction assets as [| a rest IH]; simpl; [contradiction |].
  destruct (run_backtest a period) as [result | msg] eqn:E.
  - destruct (0 <? get (SimulationResult.total_trades result) 0).
    + intros [<- | Hin].
      * exists result. cbn [summary_of AssetSummary.asset]. auto.
      * destruct (IH Hin) as (res & H1 & H2 & H3). exists res. auto.
    + intros Hin. destruct (IH Hin) as (res & H1 & H2 & H3). exists res. auto.
  - intros Hin. destruct (IH Hin) as (res & H1 & H2 & H3). exists res. auto.
Qed.

Lemma failed_asset_excluded (run_backtest : engine) (period : string)
    (assets : list string) (X msg : string) :
  run_backtest X period = Failed msg ->
  Forall (fun r => AssetSummary.asset r <> X)
         (qualifying run_backtest period assets).
Proof.
  intros Hfail. apply Forall_forall. intros r Hin Heq.
  destruct (qualifying_succeeded _ _ _ _ Hin) as (res & _ & Hok & _).
  rewrite Heq in Hok. congruence.
Qed.

Lemma lookup_summary (cfg : Config) (period now : string)
    (ranked : list AssetSummary.t) (ps : PortfolioSummary) (k : string) :
  lookup2 "summary" k (output_data_of cfg period now ranked ps) =
  if String.eqb "total_assets_tested" k
  then Some (VInt (Z.of_nat (List.length (all_assets_of cfg))))
  else dict_get k (summary_rest ranked ps).
Proof. reflexivity. Qed.

(** C6.  When the simulation of asset [X] raises, the loop still ends
    normally; the console shows the progress prefix of [X] followed by the
    error line with the exception's message; no AssetSummary of [X] enters
    [all_results]; and the locals at the end of the loop ([all_results] and
    the three totals) are those of the loop run over the universe without
    [X].  The two whole runs then return values with the same [by_asset]
    list and the same summary fields, the count of assets tested apart. *)
Theorem C6_failed_asset_isolated (cfg : Config) (run_backtest : engine)
    (enc : json_encoder) (now : string) (w : world) (X msg : string) :
  run_backtest X the_period = Failed msg ->
  In X (all_assets_of cfg) ->
  (exists (w1 : world) (st : locals),
     asset_loop run_backtest the_period (all_assets_of cfg) w = (w1, Return st)
     /\ (exists (i : nat) (pre post : list line),
           stdout w1 =
           (stdout w ++ pre
              ++ [PProgress i (List.length (all_assets_of cfg)) X; PError msg]
              ++ post)%list)
     /\ Forall (fun r => AssetSummary.asset r <> X) (all_results st)
     /\ (exists w2 : world,
           asset_loop run_backtest the_period (omit X (all_assets_of cfg)) w
           = (w2, Return st)))
  /\ (exists (w' w'' : world) (out out' : pyval),
        run_full_backtest cfg run_backtest enc now w = (w', Return out)
        /\ run_full_backtest (omit_asset X cfg) run_backtest enc now w = (w'', Return out')
        /\ lookup "by_asset" out = lookup "by_asset" out'
        /\ (forall k : string,
              k <> "total_assets_tested" ->
              lookup2 "summary" k out = lookup2 "summary" k out')).
Proof.
  intros Hfail Hin. split.
  - rewrite !asset_loop_run. eexists. eexists. split; [reflexivity |].
    cbn [stdout]. split; [| split].
    + destruct (failed_asset_reported run_backtest the_period
                  (List.length (all_assets_of cfg)) 1 _ X msg Hfail Hin)
        as (i & pre & post & ->).
      exists i, pre, post. reflexivity.
    + rewrite loop_locals_results. now apply failed_asset_excluded with msg.
    + eexists. now rewrite (loop_locals_omit _ _ _ msg).
  - rewrite !run_full_backtest_run.
    rewrite all_assets_omit, (loop_locals_omit _ _ _ msg _ Hfail).
    destruct (all_results _) as [| r rs].
    + eexists. eexists. eexists. eexists.
      split; [reflexivity |]. split; [reflexivity |]. split; reflexivity.
    + eexists. eexists. eexists. eexists.
      split; [reflexivity |]. split; [reflexivity |]. split; [reflexivity |].
      intros k Hk. rewrite !lookup_summary.
      destruct (String.eqb_spec "total_assets_tested" k) as [E | _]; [congruence |].
      reflexivity.
Qed.

Lemma C6_witness :
  (exists (w1 : world) (st : locals),
     asset_loop sample_engine the_period (all_assets_of sample_config) initial_world
     = (w1, Return st)
     /\ (exists (i : nat) (pre post : list line),
           stdout w1 =
           (stdout initial_world ++ pre
              ++ [PProgress i (List.length (all_assets_of sample_config)) "BTCUSD";
                  PError "no candles"]
              ++ post)%list)
     /\ Forall (fun r => AssetSummary.asset r <> "BTCUSD") (all_results st)
     /\ (exists w2 : world,
           asset_loop sample_engine the_period
                      (omit "BTCUSD" (all_assets_of sample_config)) initial_world
           = (w2, Return st)))
  /\ (exists (w' w'' : world) (out out' : pyval),
        run_full_backtest sample_config sample_engine sample_encoder "" initial_world
        = (w', Return out)
        /\ run_full_backtest (omit_asset "BTCUSD" sample_config) sample_engine
                             sample_encoder "" initial_world
           = (w'', Return out')
        /\ lookup "by_asset" out = lookup "by_asset" out'
        /\ (forall k : string,
              k <> "total_assets_tested" ->
              lookup2 "summary" k out = lookup2 "summary" k out')).
Proof.
  apply (C6_failed_asset_isolated sample_config sample_engine sample_encoder ""
           initial_world "BTCUSD" "no candles").
  - reflexivity.
  - simpl. auto.
Defined.

(** ** Net return *)

Lemma scenario_binary64 :
  total_return_pct_binary64 20%float 0.01%float = 20%float
  /\ total_profit_usd_binary64 10000%float
       (total_return_pct_binary64 20%float 0.01%float) = 2000%float.
Proof. split; vm_compute; reflexivity. Qed.

Lemma scenario_exact (cfg : Config) :
  (ACCOUNT_SIZE cfg == 10000)%Q ->
  (RISK_PER_TRADE_PCT cfg == 1 # 100)%Q ->
  (total_return_pct_of cfg 20 == 20)%Q
  /\ (total_profit_usd_of cfg (total_return_pct_of cfg 20) == 2000)%Q.
Proof.
  intros Ha Hr. unfold total_profit_usd_of, total_return_pct_of.
  rewrite Ha, Hr. split; reflexivity.
Qed.

(** C7.  On a run with at least one qualifying asset the returned summary
    has [net_return_pct = total_r_all * RISK_PER_TRADE_PCT * 100] and
    [net_profit_usd = ACCOUNT_SIZE * net_return_pct / 100].  With an account
    of 10000, a risk per trade of 0.01 and [total_r_all = 20.0] the two
    values are 20.0 and 2000.0, in exact arithmetic and in binary64
    alike. *)
Theorem C7_net_return (cfg : Config) (run_backtest : engine)
    (enc : json_encoder) (now : string) (w w0 w1 : world) (st : locals) :
  asset_loop run_backtest the_period (all_assets_of cfg) w0 = (w1, Return st) ->
  all_results st <> [] ->
  (exists (w' : world) (out : pyval) (net_return_pct net_profit_usd : Q),
     run_full_backtest cfg run_backtest enc now w = (w', Return out)
     /\ lookup2 "summary" "net_return_pct" out = Some (VFloat net_return_pct)
     /\ lookup2 "summary" "net_profit_usd" out = Some (VFloat net_profit_usd)
     /\ lookup2 "summary" "total_r" out = Some (VFloat (total_r_all st))
     /\ (net_return_pct == total_r_all st * RISK_PER_TRADE_PCT cfg * 100)%Q
     /\ (net_profit_usd == ACCOUNT_SIZE cfg * net_return_pct / 100)%Q)
  /\ (forall cfg' : Config,
        (ACCOUNT_SIZE cfg' == 10000)%Q ->
        (RISK_PER_TRADE_PCT cfg' == 1 # 100)%Q ->
        (total_return_pct_of cfg' 20 == 20)%Q
        /\ (total_profit_usd_of cfg' (total_return_pct_of cfg' 20) == 2000)%Q)
  /\ total_return_pct_binary64 20%float 0.01%float = 20%float
  /\ total_profit_usd_binary64 10000%float
       (total_return_pct_binary64 20%float 0.01%float) = 2000%float.
Proof.
  intros Hloop Hne. apply asset_loop_locals in Hloop. subst st.
  split; [| split; [exact scenario_exact | exact scenario_binary64]].
  destruct (run_with_trades cfg run_backtest enc now w Hne) as [w' Hrun].
  exists w'. eexists. eexists. eexists.
  split; [exact Hrun |].
  split; [reflexivity |]. split; [reflexivity |]. split; [reflexivity |].
  cbn [summary_of_locals ps_net_return_pct ps_net_profit_usd].
  unfold total_profit_usd_of, total_return_pct_of. split.
  - reflexivity.
  - unfold Qdiv. now rewrite Qmult_assoc.
Qed.

Lemma C7_witness :
  (exists (w' : world) (out : pyval) (net_return_pct net_profit_usd : Q),
     run_full_backtest sample_config sample_engine sample_encoder "" initial_world
     = (w', Return out)
     /\ lookup2 "summary" "net_return_pct" out = Some (VFloat net_return_pct)
     /\ lookup2 "summary" "net_profit_usd" out = Some (VFloat net_profit_usd)
     /\ lookup2 "summary" "total_r" out =
        Some (VFloat (total_r_all
                        (loop_locals sample_engine the_period (all_assets_of sample_config))))
     /\ (net_return_pct ==
         total_r_all (loop_locals sample_engine the_period (all_assets_of sample_config))
         * RISK_PER_TRADE_PCT sample_config * 100)%Q
     /\ (net_profit_usd == ACCOUNT_SIZE sample_config * net_return_pct / 100)%Q)
  /\ (forall cfg' : Config,
        (ACCOUNT_SIZE cfg' == 10000)%Q ->
        (RISK_PER_TRADE_PCT cfg' == 1 # 100)%Q ->
        (total_return_pct_of cfg' 20 == 20)%Q
        /\ (total_profit_usd_of cfg' (total_return_pct_of cfg' 20) == 2000)%Q)
  /\ total_return_pct_binary64 20%float 0.01%float = 20%float
  /\ total_profit_usd_binary64 10000%float
       (total_return_pct_binary64 20%float 0.01%float) = 2000%float.
Proof.
  apply (C7_net_return sample_config sample_engine sample_encoder ""
           initial_world initial_world
           (fst (asset_loop sample_engine the_period (all_assets_of sample_config)
                            initial_world))
           (loop_locals sample_engine the_period (all_assets_of sample_config))).
  - reflexivity.
  - vm_compute. discriminate.
Defined.

(** ** The credential gate *)

Lemma py_not_true (getenv : environ) (name : string) :
  missing_or_empty getenv name -> py_not (getenv name) = true.
Proof. intros [-> | ->]; reflexivity. Qed.

Lemma py_not_false (getenv : environ) (name : string) :
  configured getenv name -> py_not (getenv name) = false.
Proof.
  intros (v & -> & Hv). destruct v as [| c v']; [congruence | reflexivity].
Qed.

Lemma check_credentials_fails (getenv : environ) (w : world) :
  missing_or_empty getenv "OANDA_API_KEY"
  \/ missing_or_empty getenv "OANDA_ACCOUNT_ID" ->
  check_credentials getenv w =
  (mkWorld (stdout w ++ credentials_message) (artifact w) (sim_calls w),
   Return false).
Proof.
  intros H. unfold check_credentials.
  assert (Hb : py_not (getenv "OANDA_API_KEY")
               || py_not (getenv "OANDA_ACCOUNT_ID") = true).
  { destruct H as [H | H]; rewrite (py_not_true _ _ H);
      [reflexivity | apply orb_true_r]. }
  rewrite Hb. destruct w as [out art calls]. do 10 print_step. unfold ret.
  world_step. unfold credentials_message. now rewrite <- !app_assoc.
Qed.

Lemma check_credentials_passes (getenv : environ) (w : world) :
  configured getenv "OANDA_API_KEY" ->
  configured getenv "OANDA_ACCOUNT_ID" ->
  check_credentials getenv w = (w, Return true).
Proof.
  intros H1 H2. unfold check_credentials.
  now rewrite (py_not_false _ _ H1), (py_not_false _ _ H2).
Qed.

(** C8.  If [OANDA_API_KEY] or [OANDA_ACCOUNT_ID] is missing from the
    environment or empty, the script prints the instructional message and
    nothing else, exits with status 1, and invokes no simulation and
    writes no artifact.  If both are present and not empty,
    [check_credentials] returns [True] without printing, and the script
    goes on to [run_full_backtest], which simulates every asset of the
    universe, and ends with status 0. *)
Theorem C8_credential_gate (getenv : environ) (cfg : Config)
    (run_backtest : engine) (enc : json_encoder) (now : string) (w : world) :
  (missing_or_empty getenv "OANDA_API_KEY"
   \/ missing_or_empty getenv "OANDA_ACCOUNT_ID" ->
   exists w' : world,
     script getenv cfg run_backtest enc now w = (w', Raise (SystemExit 1))
     /\ exit_status (snd (script getenv cfg run_backtest enc now w)) <> 0
     /\ stdout w' = (stdout w ++ credentials_message)%list
     /\ sim_calls w' = sim_calls w
     /\ artifact w' = artifact w)
  /\ (configured getenv "OANDA_API_KEY" /\ configured getenv "OANDA_ACCOUNT_ID" ->
      check_credentials getenv w = (w, Return true)
      /\ exists (w' : world) (out : pyval),
           run_full_backtest cfg run_backtest enc now w = (w', Return out)
           /\ script getenv cfg run_backtest enc now w = (w', Return tt)
           /\ exit_status (snd (script getenv cfg run_backtest enc now w)) = 0
           /\ sim_calls w' =
              (sim_calls w ++ map (fun a => (a, the_period)) (all_assets_of cfg))%list).
Proof.
  split.
  - intros H. unfold script.
    rewrite (bind_return _ _ _ _ _ (check_credentials_fails getenv w H)).
    cbn. eexists. repeat split. discriminate.
  - intros [H1 H2].
    split; [now apply check_credentials_passes |].
    unfold script.
    rewrite (bind_return _ _ _ _ _ (check_credentials_passes getenv w H1 H2)).
    cbn [negb]. rewrite bind_ret.
    destruct (run_returns cfg run_backtest enc now w) as (w' & out & Hrun & Hcalls).
    exists w', out. split; [exact Hrun |].
    rewrite (bind_return _ _ _ _ _ Hrun).
    split; [reflexivity |]. split; [reflexivity | exact Hcalls].
Qed.

(** Both branches of the gate are met: an environment without the account id
    makes the script exit with status 1, and a full one lets it run. *)
Lemma credential_gate_samples :
  exit_status (snd (script partial_environ sample_config sample_engine
                           sample_encoder "" initial_world)) = 1
  /\ sim_calls (fst (script partial_environ sample_config sample_engine
                            sample_encoder "" initial_world)) = []
  /\ exit_status (snd (script full_environ sample_config sample_engine
                              sample_encoder "" initial_world)) = 0.
Proof. repeat split. Qed.

Lemma credential_cases (getenv : environ) (name : string) :
  missing_or_empty getenv name \/ configured getenv name.
Proof.
  unfold missing_or_empty, configured.
  destruct (getenv name) as [v |]; [| now left; left].
  destruct v as [| c v'].
  - left. now right.
  - right. eexists. split; [reflexivity | discriminate].
Qed.

(** ** The serialized artifact *)

Lemma string_app_assoc (a b c : string) : ((a ++ b) ++ c = a ++ (b ++ c))%string.
Proof.
  induction a as [| ch a IH]; simpl.
  - reflexivity.
  - now rewrite IH.
Qed.

Lemma dumps_output_data (cfg : Config) (enc : json_encoder) (period : string)
    (ranked : list AssetSummary.t) (ps : PortfolioSummary) :
  exists post : string,
    forall now : string,
      dumps enc 0 (output_data_of cfg period now ranked ps) =
      (artifact_prefix enc period ++ encode_basestring_ascii enc now ++ post)%string.
Proof.
  eexists. intros now.
  unfold output_data_of, artifact_prefix.
  cbn [dumps].
  rewrite !string_app_assoc.
  reflexivity.
Qed.

(** C9.  The structured artifact is a function of the summary, the ranked
    sequence and the run parameters, the timestamp apart.  The bytes that
    [json.dump] writes are a fixed prefix, the encoded value of
    ["generated_at"], and a fixed suffix: prefix and suffix are the same
    for every timestamp.  At the level of the dict, two documents built at
    different times agree on every key but ["generated_at"].  For whole
    runs that differ in the clock reading only, the artifacts differ in
    that slot only, and the console output not at all. *)
Theorem C9_artifact_deterministic (cfg : Config) (run_backtest : engine)
    (enc : json_encoder) (period : string)
    (ranked : list AssetSummary.t) (ps : PortfolioSummary) (w : world) :
  (exists pre post : string,
     forall now : string,
       dumps enc 0 (output_data_of cfg period now ranked ps) =
       (pre ++ encode_basestring_ascii enc now ++ post)%string)
  /\ (forall (now1 now2 k : string),
        k <> "generated_at" ->
        lookup k (output_data_of cfg period now1 ranked ps) =
        lookup k (output_data_of cfg period now2 ranked ps))
  /\ (forall now : string,
        lookup "generated_at" (output_data_of cfg period now ranked ps) =
        Some (VStr now))
  /\ (exists pre post : string,
        forall now : string,
          let w' := fst (run_full_backtest cfg run_backtest enc now w) in
          let st := loop_locals run_backtest the_period (all_assets_of cfg) in
          (all_results st <> [] ->
           artifact w' =
           Some (pre ++ encode_basestring_ascii enc now ++ post)%string)
          /\ (all_results st = [] -> artifact w' = artifact w))
  /\ (forall now1 now2 : string,
        stdout (fst (run_full_backtest cfg run_backtest enc now1 w)) =
        stdout (fst (run_full_backtest cfg run_backtest enc now2 w))).
Proof.
  split; [| split; [| split; [| split]]].
  - destruct (dumps_output_data cfg enc period ranked ps) as [post H].
    exists (artifact_prefix enc period), post. exact H.
  - intros now1 now2 k Hk. unfold output_data_of, lookup. cbn [dict_get].
    destruct (String.eqb_spec "period" k); [reflexivity |].
    destruct (String.eqb_spec "generated_at" k); [congruence | reflexivity].
  - intros now. reflexivity.
  - set (st := loop_locals run_backtest the_period (all_assets_of cfg)).
    destruct (dumps_output_data cfg enc the_period (rank (all_results st))
                (summary_of_locals cfg st)) as [post H].
    exists (artifact_prefix enc the_period), post. intros now.
    cbv zeta. rewrite run_full_backtest_run. fold st.
    destruct (all_results st) as [| r rs] eqn:E; cbn [fst artifact].
    + split; [congruence | reflexivity].
    + split; [| discriminate]. intros _. now rewrite H.
  - intros now1 now2. rewrite !run_full_backtest_run.
    destruct (all_results _); reflexivity.
Qed.

(** ** Sample runs *)

(** The layout of [dumps] on a small document. *)
Example dumps_layout :
  dumps sample_encoder 0
        (VDict [("a", VInt 1); ("b", VList [VInt 2; VInt 3]); ("c", VList [])]) =
  ("{" ++ newline
   ++ "  'a': 1," ++ newline
   ++ "  'b': [" ++ newline
   ++ "    2," ++ newline
   ++ "    3" ++ newline
   ++ "  ]," ++ newline
   ++ "  'c': []" ++ newline
   ++ "}")%string.
Proof. reflexivity. Qed.

(** Two assets, the first with trades of +2R and -1R, the second with no
    trade, and a third whose simulation fails: one AssetSummary, two
    trades, one win, a total of 1R, a win rate of 50 percent and 0.5R per
    trade; the failing asset is absent from [by_asset]. *)
Example scenario_two_assets :
  let st := loop_locals sample_engine the_period (all_assets_of sample_config) in
  all_results st = [summary_of "EURUSD" eurusd_result]
  /\ AssetSummary.trades (summary_of "EURUSD" eurusd_result) = 2
  /\ (AssetSummary.total_r (summary_of "EURUSD" eurusd_result) == 1)%Q
  /\ total_trades_all st = 2
  /\ total_wins_all st = 1
  /\ (total_r_all st == 1)%Q
  /\ (ps_win_rate (summary_of_locals sample_config st) == 50)%Q
  /\ (ps_avg_r_per_trade (summary_of_locals sample_config st) == 1 # 2)%Q
  /\ lookup "by_asset"
        (output_data_of sample_config the_period "" (rank (all_results st))
                        (summary_of_locals sample_config st))
     = Some (VList [by_asset_entry (summary_of "EURUSD" eurusd_result)])
  /\ exit_status (snd (script full_environ sample_config sample_engine
                              sample_encoder "" initial_world)) = 0.
Proof. cbv zeta. repeat split. Qed.

(** ** Further properties of the asset loop *)

Lemma loop_ends_locals (run_backtest : engine) (period : string)
    (assets : list string) :
  loop_ends run_backtest period assets (loop_locals run_backtest period assets).
Proof. intros w. rewrite asset_loop_run. eexists. reflexivity. Qed.

Lemma loop_ends_unique (run_backtest : engine) (period : string)
    (assets : list string) (st : locals) :
  loop_ends run_backtest period assets st ->
  st = loop_locals run_backtest period assets.
Proof.
  intros H. destruct (H initial_world) as [w' Hw].
  now apply asset_loop_locals in Hw.
Qed.


Lemma sum_Q_app (xs ys : list Q) : (sum_Q (xs ++ ys) == sum_Q xs + sum_Q ys)%Q.
Proof. unfold sum_Q at 1. rewrite fold_left_app. apply fold_Qplus_acc. Qed.


Lemma sim_calls_assets (period : string) (assets : list string) :
  map fst (map (fun x : string => (x, period)) assets) = assets.
Proof. rewrite map_map. cbn [fst]. apply map_id. Qed.

Lemma loop_lines_length (run_backtest : engine) (period : string) (n : nat)
    (assets : list string) :
  forall k : nat,
    List.length (loop_lines run_backtest period n (enumerate assets k)) =
    (2 * List.length assets)%nat.
Proof.
  induction assets as [| a rest IH]; intros k.
  - reflexivity.
  - cbn [enumerate loop_lines List.length]. rewrite IH. lia.
Qed.

(** X1.  The loop calls the engine once for every entry of the universe, in
    universe order and always with the period ["Jan 2024 - Dec 2024"],
    whether the simulation succeeds, finds nothing or fails; an asset listed
    twice is simulated twice.  It prints two lines per entry and leaves the
    artifact alone. *)
Theorem X1_one_call_per_entry (cfg : Config) (run_backtest : engine) (w : world) :
  exists (w' : world) (st : locals),
    asset_loop run_backtest the_period (all_assets_of cfg) w = (w', Return st)
    /\ sim_calls w' =
       (sim_calls w
        ++ map (fun a => (a, "Jan 2024 - Dec 2024"))
               (((FOREX_PAIRS cfg ++ METALS cfg) ++ INDICES cfg) ++ CRYPTO_ASSETS cfg))%list
    /\ (forall a : string,
          count_occ string_dec (map fst (sim_calls w')) a =
          (count_occ string_dec (map fst (sim_calls w)) a
           + count_occ string_dec (all_assets_of cfg) a)%nat)
    /\ List.length (printed_since w w') = (2 * List.length (all_assets_of cfg))%nat
    /\ artifact w' = artifact w.
Proof.
  rewrite asset_loop_run. eexists. eexists. split; [reflexivity |].
  cbn [sim_calls artifact stdout]. split; [reflexivity |]. split; [| split].
  - intros a. rewrite map_app, count_occ_app, sim_calls_assets. reflexivity.
  - unfold printed_since. cbn [stdout].
    rewrite skipn_app, skipn_all, Nat.sub_diag. cbn [skipn app].
    apply loop_lines_length.
  - reflexivity.
Qed.


Lemma qualifying_iff (run_backtest : engine) (period : string)
    (assets : list string) (r : AssetSummary.t) :
  In r (qualifying run_backtest period assets) <->
  exists (asset : string) (result : SimulationResult.t),
    In asset assets
    /\ run_backtest asset period = Ok result
    /\ 0 < get (SimulationResult.total_trades result) 0
    /\ r = summary_of asset result.
Proof.
  induction assets as [| a rest IH]; simpl.
  - split; [contradiction | intros (x & res & [] & _)].
  - split.
    + destruct (run_backtest a period) as [result | msg] eqn:E.
      * destruct (0 <? get (SimulationResult.total_trades result) 0) eqn:P.
        -- intros [<- | Hin].
           ++ exists a, result. apply Z.ltb_lt in P. auto.
           ++ apply IH in Hin. destruct Hin as (x & res & H1 & H2 & H3 & H4).
              exists x, res. auto.
        -- intros Hin. apply IH in Hin. destruct Hin as (x & res & H1 & H2 & H3 & H4).
           exists x, res. auto.
      * intros Hin. apply IH in Hin. destruct Hin as (x & res & H1 & H2 & H3 & H4).
        exists x, res. auto.
    + intros (x & res & [-> | Hin] & Hok & Hpos & ->).
      * rewrite Hok. apply Z.ltb_lt in Hpos. rewrite Hpos. now left.
      * assert (Hr : In (summary_of x res) (qualifying run_backtest period rest))
          by (apply IH; exists x, res; auto).
        destruct (run_backtest a period) as [result | msg]; [| exact Hr].
        destruct (0 <? get (SimulationResult.total_trades result) 0); [| exact Hr].
        now right.
Qed.

(** X3.  When the loop ends, [all_results] holds exactly the summaries of
    the universe entries whose simulation returned a result that reports
    [total_trades > 0]: nothing for a failed simulation or for a result
    with no positive trade count, and nothing that does not come from the
    universe. *)
Theorem X3_all_results_membership (run_backtest : engine) (period : string)
    (assets : list string) :
  exists st : locals,
    loop_ends run_backtest period assets st
    /\ forall r : AssetSummary.t,
         In r (all_results st) <->
         exists (asset : string) (result : SimulationResult.t),
           In asset assets
           /\ run_backtest asset period = Ok result
           /\ 0 < get (SimulationResult.total_trades result) 0
           /\ r = summary_of asset result.
Proof.
  exists (loop_locals run_backtest period assets).
  split; [apply loop_ends_locals |].
  intros r. rewrite loop_locals_results. apply qualifying_iff.
Qed.

(** X4.  A result whose [total_trades] is absent, zero or negative
    contributes nothing, whatever its trade list holds: the iteration calls
    the engine, prints the progress prefix and ["No trades"], and leaves
    [all_results] and the three totals as they were. *)
Theorem X4_no_count_no_contribution (run_backtest : engine) (period : string)
    (n i : nat) (st : locals) (asset : string) (w : world)
    (result : SimulationResult.t) :
  run_backtest asset period = Ok result ->
  get (SimulationResult.total_trades result) 0 <= 0 ->
  loop_body run_backtest period n st (i, asset) w =
  (mkWorld (stdout w ++ [PProgress i n asset; Text "No trades"])
           (artifact w)
           (sim_calls w ++ [(asset, period)]),
   Return st).
Proof.
  intros Hok Hle. rewrite loop_body_run. unfold step, outcome_line. rewrite Hok.
  replace (0 <? get (SimulationResult.total_trades result) 0) with false
    by (symmetry; apply Z.ltb_ge; exact Hle).
  reflexivity.
Qed.

Lemma X4_witness :
  loop_body phantom_engine the_period 1 initial_locals (1%nat, "EURUSD") initial_world =
  (mkWorld (stdout initial_world ++ [PProgress 1 1 "EURUSD"; Text "No trades"])
           (artifact initial_world)
           (sim_calls initial_world ++ [("EURUSD", the_period)]),
   Return initial_locals).
Proof.
  apply (X4_no_count_no_contribution phantom_engine the_period 1 1 initial_locals
           "EURUSD" initial_world phantom_result).
  - reflexivity.
  - simpl. lia.
Defined.

Lemma qualifying_all_failed (run_backtest : engine) (period : string)
    (assets : list string) :
  (forall a, In a assets -> exists msg, run_backtest a period = Failed msg) ->
  qualifying run_backtest period assets = [].
Proof.
  induction assets as [| a rest IH]; intros H; simpl.
  - reflexivity.
  - destruct (H a (or_introl eq_refl)) as [msg ->].
    apply IH. intros x Hx. apply H. now right.
Qed.

(** X5.  A run in which every simulation fails ends like a run without
    trades: every entry of the universe is attempted, the run prints the
    no-trades message last, returns the empty dict, writes no artifact and
    raises nothing. *)
Theorem X5_all_simulations_fail (cfg : Config) (run_backtest : engine)
    (enc : json_encoder) (now : string) (w : world) :
  (forall a, In a (all_assets_of cfg) ->
             exists msg, run_backtest a the_period = Failed msg) ->
  exists (w' : world) (printed : list line),
    run_full_backtest cfg run_backtest enc now w = (w', Return (VDict []))
    /\ stdout w' = (stdout w ++ printed ++ [Text no_trades_message])%list
    /\ artifact w' = artifact w
    /\ sim_calls w' =
       (sim_calls w ++ map (fun a => (a, the_period)) (all_assets_of cfg))%list.
Proof.
  intros Hfail.
  assert (Hnil : all_results (loop_locals run_backtest the_period (all_assets_of cfg)) = []).
  { rewrite loop_locals_results. now apply qualifying_all_failed. }
  destruct (run_without_trades cfg run_backtest enc now w Hnil) as [printed Hrun].
  eexists. exists printed. split; [exact Hrun |]. repeat split.
Qed.

Lemma X5_witness :
  exists (w' : world) (printed : list line),
    run_full_backtest sample_config failing_engine sample_encoder "" initial_world
    = (w', Return (VDict []))
    /\ stdout w' = (stdout initial_world ++ printed ++ [Text no_trades_message])%list
    /\ artifact w' = artifact initial_world
    /\ sim_calls w' =
       (sim_calls initial_world
        ++ map (fun a => (a, the_period)) (all_assets_of sample_config))%list.
Proof.
  apply (X5_all_simulations_fail sample_config failing_engine sample_encoder ""
           initial_world).
  intros a _. exists "timeout". reflexivity.
Defined.

(** ** Further properties of the summary *)

Lemma wins_of_bounds (trades : list Trade.t) :
  0 <= wins_of trades <= Z.of_nat (List.length trades).
Proof.
  rewrite wins_of_count. split; [lia |].
  apply Nat2Z.inj_le.
  induction trades as [| t rest IH]; simpl.
  - lia.
  - destruct (is_win t); simpl; lia.
Qed.

Lemma sum_Z_map_le {A : Type} (f g : A -> Z) (l : list A) :
  Forall (fun x => f x <= g x) l -> sum_Z (map f l) <= sum_Z (map g l).
Proof.
  induction 1 as [| x rest Hx _ IH]; cbn [map].
  - reflexivity.
  - rewrite !sum_Z_cons. lia.
Qed.

Lemma sum_Z_map_nonneg {A : Type} (f : A -> Z) (l : list A) :
  Forall (fun x => 0 <= f x) l -> 0 <= sum_Z (map f l).
Proof.
  induction 1 as [| x rest Hx _ IH]; cbn [map].
  - reflexivity.
  - rewrite sum_Z_cons. lia.
Qed.

Lemma rate_bounds (a b : Z) :
  0 <= a -> 0 < b ->
  (0 <= inject_Z a / inject_Z b * 100)%Q
  /\ (a <= b -> (inject_Z a / inject_Z b * 100 <= 100)%Q).
Proof.
  intros Ha Hb. destruct b as [| p | p]; try lia.
  unfold Qle, Qdiv, Qmult, Qinv, inject_Z. simpl. split; [| intros Hab]; nia.
Qed.

(** X6.  On a run with at least one qualifying asset the portfolio win
    rate is never negative, and it is at most 100 when no qualifying result
    lists more trades than it reports.  (The count of wins comes from the
    trade lists and the denominator from the reported counts, so without
    that condition the rate is not bounded by 100.) *)
Theorem X6_win_rate_bounds (cfg : Config) (run_backtest : engine)
    (enc : json_encoder) (now : string) (w : world) (st : locals) :
  loop_ends run_backtest the_period (all_assets_of cfg) st ->
  all_results st <> [] ->
  exists (w' : world) (out : pyval) (win_rate : Q),
    run_full_backtest cfg run_backtest enc now w = (w', Return out)
    /\ lookup2 "summary" "win_rate" out = Some (VFloat win_rate)
    /\ (0 <= win_rate)%Q
    /\ (Forall (fun r => Z.of_nat (List.length (trades_of r)) <= AssetSummary.trades r)
               (all_results st) ->
        (win_rate <= 100)%Q).
Proof.
  intros Hends Hne. apply loop_ends_unique in Hends. subst st.
  set (st := loop_locals run_backtest the_period (all_assets_of cfg)) in *.
  pose proof (loop_locals_inv run_backtest the_period (all_assets_of cfg)) as Hinv.
  fold st in Hinv.
  destruct (run_with_trades cfg run_backtest enc now w Hne) as [w' Hrun].
  exists w'. eexists. eexists. split; [exact Hrun |].
  split; [reflexivity |].
  cbn [summary_of_locals ps_win_rate].
  assert (Hpos : 0 < total_trades_all st) by now apply inv_trades_positive.
  assert (Hw : 0 <= total_wins_all st).
  { rewrite (inv_wins st Hinv). apply sum_Z_map_nonneg.
    apply Forall_forall. intros r _. apply wins_of_bounds. }
  destruct (rate_bounds _ _ Hw Hpos) as [H0 H100].
  split; [exact H0 |].
  intros Hlisted. apply H100.
  rewrite (inv_wins st Hinv), (inv_trades st Hinv).
  apply sum_Z_map_le.
  eapply Forall_impl; [| exact Hlisted].
  intros r Hr. cbv beta in Hr.
  pose proof (wins_of_bounds (trades_of r)). lia.
Qed.

Lemma X6_witness :
  exists (w' : world) (out : pyval) (win_rate : Q),
    run_full_backtest sample_config sample_engine sample_encoder "" initial_world
    = (w', Return out)
    /\ lookup2 "summary" "win_rate" out = Some (VFloat win_rate)
    /\ (0 <= win_rate)%Q
    /\ (Forall (fun r => Z.of_nat (List.length (trades_of r)) <= AssetSummary.trades r)
               (all_results (loop_locals sample_engine the_period
                                         (all_assets_of sample_config))) ->
        (win_rate <= 100)%Q).
Proof.
  apply (X6_win_rate_bounds sample_config sample_engine sample_encoder ""
           initial_world
           (loop_locals sample_engine the_period (all_assets_of sample_config))).
  - apply loop_ends_locals.
  - vm_compute. discriminate.
Defined.







Lemma run_with_trades_world (cfg : Config) (run_backtest : engine)
    (enc : json_encoder) (now : string) (w : world) :
  let st := loop_locals run_backtest the_period (all_assets_of cfg) in
  let out := output_data_of cfg the_period now (rank (all_results st))
                            (summary_of_locals cfg st) in
  all_results st <> [] ->
  exists printed : list line,
    run_full_backtest cfg run_backtest enc now w =
    (mkWorld (stdout w ++ printed ++ report_lines cfg the_period st)
             (Some (dumps enc 0 out))
             (sim_calls w ++ map (fun a => (a, the_period)) (all_assets_of cfg)),
     Return out).
Proof.
  intros st out Hne. rewrite run_full_backtest_run. fold st.
  destruct (all_results st) as [| r rs] eqn:E; [congruence |].
  exists (header_lines cfg
            ++ loop_lines run_backtest the_period (List.length (all_assets_of cfg))
                          (enumerate (all_assets_of cfg) 1)
            ++ summary_banner)%list.
  subst out. rewrite <- !app_assoc. reflexivity.
Qed.





(** ** Further properties of the ranking *)

Lemma sorted_split {A : Type} (R : A -> A -> Prop) (l1 l2 : list A) :
  StronglySorted R (l1 ++ l2) ->
  Forall (fun a => Forall (R a) l2) l1.
Proof.
  induction l1 as [| x rest IH]; intros Hs; simpl in *.
  - constructor.
  - inversion Hs as [| ? ? Hrest Hall]; subst.
    constructor.
    + apply Forall_app in Hall. tauto.
    + now apply IH.
Qed.

Lemma sorted_head_first {A : Type} (key : A -> Q) (l : list A) :
  match sort_by_key_desc key l with
  | [] => l = []
  | best :: _ => Forall (fun r => (key r <= key best)%Q) l
  end.
Proof.
  pose proof (sort_by_key_desc_sorted key l) as Hs.
  pose proof (sort_by_key_desc_perm key l) as Hp.
  destruct (sort_by_key_desc key l) as [| best rest].
  - apply Permutation_nil in Hp. exact Hp.
  - apply Forall_forall. intros r Hr.
    apply (Permutation_in _ (Permutation_sym Hp)) in Hr.
    now apply (sorted_head_max key best r rest).
Qed.

(** X10.  The top-10 view holds the best performers: no ranked asset left
    out of it has a greater [total_r] than an asset in it, and the view
    followed by the rest is the whole ranking.  The first ranked asset has
    the greatest [total_r] of all qualifying assets. *)
Theorem X10_top10_dominates (results : list AssetSummary.t) :
  Forall (fun a =>
            Forall (fun b => (AssetSummary.total_r b <= AssetSummary.total_r a)%Q)
                   (skipn 10 (rank results)))
         (top10 (rank results))
  /\ (top10 (rank results) ++ skipn 10 (rank results))%list = rank results
  /\ match rank results with
     | [] => results = []
     | best :: _ =>
         Forall (fun r => (AssetSummary.total_r r <= AssetSummary.total_r best)%Q)
                results
     end.
Proof.
  split; [| split].
  - apply (sorted_split (desc AssetSummary.total_r)).
    unfold top10. rewrite firstn_skipn. apply sort_by_key_desc_sorted.
  - unfold top10. apply firstn_skipn.
  - apply sorted_head_first.
Qed.

(** X11.  Ranking leaves a sequence that is already in descending order of
    [total_r] as it is, and so ranking twice is the same as ranking
    once. *)
Theorem X11_rank_fixed_point (results : list AssetSummary.t) :
  StronglySorted (desc AssetSummary.total_r) results ->
  rank results = results
  /\ forall others : list AssetSummary.t, rank (rank others) = rank others.
Proof.
  intros Hs.
  assert (Hfix : forall l, StronglySorted (desc AssetSummary.total_r) l -> rank l = l).
  { intros l Hl. symmetry. apply sort_by_key_desc_unique; [exact Hl | reflexivity]. }
  split; [now apply Hfix |].
  intros others. apply Hfix. apply sort_by_key_desc_sorted.
Qed.

Lemma X11_witness :
  rank [sample_summary "XAUUSD" 3%Q; sample_summary "EURUSD" 1%Q] =
  [sample_summary "XAUUSD" 3%Q; sample_summary "EURUSD" 1%Q]
  /\ forall others : list AssetSummary.t, rank (rank others) = rank others.
Proof.
  apply (X11_rank_fixed_point
           [sample_summary "XAUUSD" 3%Q; sample_summary "EURUSD" 1%Q]).
  repeat constructor. vm_compute. discriminate.
Defined.

(** ** Further properties of the artifact and of the console *)

(** X12.  On a run with at least one qualifying asset the artifact is the
    serialization of the very dict that [run_full_backtest] returns, and it
    replaces whatever the artifact held before: two runs that start from
    different artifacts return the same dict and leave the same artifact. *)
Theorem X12_artifact_is_returned_dict (cfg : Config) (run_backtest : engine)
    (enc : json_encoder) (now : string) (w1 w2 : world) (st : locals) :
  loop_ends run_backtest the_period (all_assets_of cfg) st ->
  all_results st <> [] ->
  exists (w1' w2' : world) (out : pyval),
    run_full_backtest cfg run_backtest enc now w1 = (w1', Return out)
    /\ run_full_backtest cfg run_backtest enc now w2 = (w2', Return out)
    /\ artifact w1' = Some (dumps enc 0 out)
    /\ artifact w2' = artifact w1'.
Proof.
  intros Hends Hne. apply loop_ends_unique in Hends. subst st.
  destruct (run_with_trades_world cfg run_backtest enc now w1 Hne) as [p1 H1].
  destruct (run_with_trades_world cfg run_backtest enc now w2 Hne) as [p2 H2].
  eexists. eexists. eexists.
  split; [exact H1 |]. split; [exact H2 |]. split; reflexivity.
Qed.

Lemma X12_witness :
  exists (w1' w2' : world) (out : pyval),
    run_full_backtest sample_config sample_engine sample_encoder "" initial_world
    = (w1', Return out)
    /\ run_full_backtest sample_config sample_engine sample_encoder ""
                         (mkWorld [] (Some "stale") []) = (w2', Return out)
    /\ artifact w1' = Some (dumps sample_encoder 0 out)
    /\ artifact w2' = artifact w1'.
Proof.
  apply (X12_artifact_is_returned_dict sample_config sample_engine sample_encoder ""
           initial_world (mkWorld [] (Some "stale") [])
           (loop_locals sample_engine the_period (all_assets_of sample_config))).
  - apply loop_ends_locals.
  - vm_compute. discriminate.
Defined.




Lemma is_win_false (t : Trade.t) :
  (rr_of t <= 0)%Q -> is_win t = false.
Proof.
  intros H. unfold is_win, Qgtb.
  apply Qle_bool_iff in H. now rewrite H.
Qed.

(** X14.  A trade whose [rr] is absent or zero counts for nothing: with or
    without it, the win count of its trade list is the same and the total
    R of the list has the same value.  (A trade with a negative [rr] is no
    win either.) *)
Theorem X14_breakeven_trade_counts_for_nothing (before after : list Trade.t)
    (t : Trade.t) :
  (get (Trade.rr t) 0 == 0)%Q ->
  wins_of (before ++ t :: after) = wins_of (before ++ after)
  /\ (total_r_of (before ++ t :: after) == total_r_of (before ++ after))%Q
  /\ (forall loser : Trade.t,
        (get (Trade.rr loser) 0 < 0)%Q ->
        wins_of (before ++ loser :: after) = wins_of (before ++ after)).
Proof.
  intros Hzero.
  assert (Hskip : forall x, (rr_of x <= 0)%Q ->
                            wins_of (before ++ x :: after) = wins_of (before ++ after)).
  { intros x Hx. rewrite !wins_of_count, !filter_app. cbn [filter].
    now rewrite (is_win_false x Hx). }
  split; [| split].
  - apply Hskip. unfold rr_of. rewrite Hzero. apply Qle_refl.
  - rewrite !total_r_of_sum, !map_app. cbn [map].
    rewrite !sum_Q_app, sum_Q_cons. unfold rr_of at 2. rewrite Hzero. ring.
  - intros loser Hl. apply Hskip. now apply Qlt_le_weak.
Qed.

Lemma X14_witness :
  wins_of ([trade 2%Q] ++ Trade.mk None :: [trade (-1)%Q]) =
  wins_of ([trade 2%Q] ++ [trade (-1)%Q])
  /\ (total_r_of ([trade 2%Q] ++ Trade.mk None :: [trade (-1)%Q])
      == total_r_of ([trade 2%Q] ++ [trade (-1)%Q]))%Q
  /\ (forall loser : Trade.t,
        (get (Trade.rr loser) 0 < 0)%Q ->
        wins_of ([trade 2%Q] ++ loser :: [trade (-1)%Q]) =
        wins_of ([trade 2%Q] ++ [trade (-1)%Q])).
Proof.
  apply (X14_breakeven_trade_counts_for_nothing [trade 2%Q] [trade (-1)%Q]
           (Trade.mk None)).
  reflexivity.
Defined.

Lemma qualifying_length (run_backtest : engine) (period : string)
    (assets : list string) :
  (List.length (qualifying run_backtest period assets) <= List.length assets)%nat.
Proof.
  induction assets as [| a rest IH]; simpl.
  - lia.
  - destruct (run_backtest a period) as [result | msg]; [| lia].
    destruct (0 <? get (SimulationResult.total_trades result) 0); simpl; lia.
Qed.

(** X15.  The returned document is consistent in its counts: [by_asset] has
    one entry per qualifying asset, in ranked order;
    [assets_with_trades] is the number of these entries;
    [total_assets_tested] is the size of the universe, failed and empty
    simulations included; and the first count is positive and at most the
    second. *)
Theorem X15_document_counts (cfg : Config) (run_backtest : engine)
    (enc : json_encoder) (now : string) (w : world) (st : locals) :
  loop_ends run_backtest the_period (all_assets_of cfg) st ->
  all_results st <> [] ->
  exists (w' : world) (out : pyval),
    run_full_backtest cfg run_backtest enc now w = (w', Return out)
    /\ lookup "by_asset" out = Some (VList (map by_asset_entry (rank (all_results st))))
    /\ lookup2 "summary" "assets_with_trades" out =
       Some (VInt (Z.of_nat (List.length (all_results st))))
    /\ lookup2 "summary" "total_assets_tested" out =
       Some (VInt (Z.of_nat (List.length (all_assets_of cfg))))
    /\ List.length (map by_asset_entry (rank (all_results st))) =
       List.length (all_results st)
    /\ (0 < List.length (all_results st) <= List.length (all_assets_of cfg))%nat.
Proof.
  intros Hends Hne. apply loop_ends_unique in Hends. subst st.
  set (st := loop_locals run_backtest the_period (all_assets_of cfg)) in *.
  destruct (run_with_trades cfg run_backtest enc now w Hne) as [w' Hrun].
  assert (Hlen : List.length (rank (all_results st)) = List.length (all_results st))
    by (apply Permutation_length, sort_by_key_desc_perm).
  exists w'. eexists. split; [exact Hrun |].
  split; [reflexivity |].
  split; [rewrite <- Hlen; reflexivity |].
  split; [reflexivity |].
  split; [now rewrite length_map |].
  split.
  - destruct (all_results st); [congruence | simpl; lia].
  - unfold st. rewrite loop_locals_results. apply qualifying_length.
Qed.

Lemma X15_witness :
  exists (w' : world) (out : pyval),
    run_full_backtest sample_config sample_engine sample_encoder "" initial_world
    = (w', Return out)
    /\ lookup "by_asset" out =
       Some (VList (map by_asset_entry
                        (rank (all_results (loop_locals sample_engine the_period
                                              (all_assets_of sample_config))))))
    /\ lookup2 "summary" "assets_with_trades" out =
       Some (VInt (Z.of_nat (List.length
                     (all_results (loop_locals sample_engine the_period
                                     (all_assets_of sample_config))))))
    /\ lookup2 "summary" "total_assets_tested" out =
       Some (VInt (Z.of_nat (List.length (all_assets_of sample_config))))
    /\ List.length (map by_asset_entry
                        (rank (all_results (loop_locals sample_engine the_period
                                              (all_assets_of sample_config))))) =
       List.length (all_results (loop_locals sample_engine the_period
                                   (all_assets_of sample_config)))
    /\ (0 < List.length (all_results (loop_locals sample_engine the_period
                                        (all_assets_of sample_config)))
        <= List.length (all_assets_of sample_config))%nat.
Proof.
  apply (X15_document_counts sample_config sample_engine sample_encoder ""
           initial_world
           (loop_locals sample_engine the_period (all_assets_of sample_config))).
  - apply loop_ends_locals.
  - vm_compute. discriminate.
Defined.

Lemma printed_since_app (w : world) (added : list line)
    (art : option string) (calls : list (string * string)) :
  printed_since w (mkWorld (stdout w ++ added) art calls) = added.
Proof.
  unfold printed_since. cbn [stdout].
  now rewrite skipn_app, skipn_all, Nat.sub_diag.
Qed.

(** X16.  [check_credentials] returns [True] exactly when both
    [OANDA_API_KEY] and [OANDA_ACCOUNT_ID] are set and not empty.  It
    prints nothing when it returns [True] and the ten lines of the
    instructional message when it returns [False]; it never raises, and it
    touches neither the artifact nor the engine. *)
Theorem X16_check_credentials_spec (getenv : environ) (w : world) :
  exists (w' : world) (ok : bool),
    check_credentials getenv w = (w', Return ok)
    /\ (ok = true <->
        configured getenv "OANDA_API_KEY" /\ configured getenv "OANDA_ACCOUNT_ID")
    /\ printed_since w w' = (if ok then [] else credentials_message)
    /\ List.length credentials_message = 10%nat
    /\ artifact w' = artifact w
    /\ sim_calls w' = sim_calls w.
Proof.
  destruct (credential_cases getenv "OANDA_API_KEY") as [M1 | C1].
  - rewrite check_credentials_fails by (now left).
    eexists. exists false. split; [reflexivity |].
    split.
    + split; [discriminate |]. intros [(v & Hv & Hne) _].
      destruct M1 as [E | E]; rewrite E in Hv; [discriminate |].
      inversion Hv; subst. congruence.
    + split; [apply printed_since_app |]. repeat split.
  - destruct (credential_cases getenv "OANDA_ACCOUNT_ID") as [M2 | C2].
    + rewrite check_credentials_fails by (now right).
      eexists. exists false. split; [reflexivity |].
      split.
      * split; [discriminate |]. intros [_ (v & Hv & Hne)].
        destruct M2 as [E | E]; rewrite E in Hv; [discriminate |].
        inversion Hv; subst. congruence.
      * split; [apply printed_since_app |]. repeat split.
    + rewrite check_credentials_passes by assumption.
      exists w, true. split; [reflexivity |].
      split; [tauto |].
      split.
      * unfold printed_since. apply skipn_all.
      * repeat split.
Qed.

Lemma loop_lines_nth (run_backtest : engine) (period : string) (n : nat)
    (assets : list string) :
  forall (k start : nat) (a : string),
    nth_error assets k = Some a ->
    nth_error (loop_lines run_backtest period n (enumerate assets start)) (2 * k)
    = Some (PProgress (start + k) n a)
    /\ nth_error (loop_lines run_backtest period n (enumerate assets start)) (2 * k + 1)
       = Some (outcome_line (run_backtest a period)).
Proof.
  induction assets as [| x rest IH]; intros k start a Hk.
  - destruct k; discriminate.
  - destruct k as [| k'].
    + inversion Hk; subst. cbn [enumerate loop_lines]. rewrite Nat.add_0_r.
      split; reflexivity.
    + cbn [nth_error] in Hk. cbn [enumerate loop_lines].
      destruct (IH k' (S start) a Hk) as [H1 H2].
      replace (2 * S k')%nat with (S (S (2 * k'))) by lia.
      replace (start + S k')%nat with (S start + k')%nat by lia.
      split; [exact H1 |].
      replace (S (S (2 * k')) + 1)%nat with (S (S (2 * k' + 1))) by lia.
      exact H2.
Qed.

(** X17.  The console follows the universe: the entry at position [k]
    (from 0) produces the lines [2k] and [2k+1] of the loop's output, first
    the progress prefix numbered [k+1] out of the size of the universe, then
    its outcome: the error message when the simulation failed,
    ["No trades"] when the result reports no positive trade count, and the
    trade count, win rate and total R otherwise. *)
Theorem X17_console_follows_universe (run_backtest : engine) (period : string)
    (assets : list string) (w : world) (k : nat) (a : string) :
  nth_error assets k = Some a ->
  exists (w' : world) (st : locals),
    asset_loop run_backtest period assets w = (w', Return st)
    /\ nth_error (printed_since w w') (2 * k) =
       Some (PProgress (k + 1) (List.length assets) a)
    /\ nth_error (printed_since w w') (2 * k + 1) =
       Some (match run_backtest a period with
             | Failed msg => PError msg
             | Ok result =>
                 if 0 <? get (SimulationResult.total_trades result) 0
                 then POutcome (get (SimulationResult.total_trades result) 0)
                               (get (SimulationResult.win_rate result) 0%Q)
                               (total_r_of (get (SimulationResult.trades result) []))
                 else Text "No trades"
             end).
Proof.
  intros Hk. rewrite asset_loop_run. eexists. eexists. split; [reflexivity |].
  rewrite printed_since_app.
  destruct (loop_lines_nth run_backtest period (List.length assets) assets k 1 a Hk)
    as [H1 H2].
  split.
  - rewrite H1. f_equal. f_equal. lia.
  - rewrite H2. unfold outcome_line.
    destruct (run_backtest a period); reflexivity.
Qed.

Lemma X17_witness :
  exists (w' : world) (st : locals),
    asset_loop sample_engine the_period ["EURUSD"; "XAUUSD"; "BTCUSD"] initial_world
    = (w', Return st)
    /\ nth_error (printed_since initial_world w') (2 * 2) =
       Some (PProgress (2 + 1) (List.length ["EURUSD"; "XAUUSD"; "BTCUSD"]) "BTCUSD")
    /\ nth_error (printed_since initial_world w') (2 * 2 + 1) =
       Some (match sample_engine "BTCUSD" the_period with
             | Failed msg => PError msg
             | Ok result =>
                 if 0 <? get (SimulationResult.total_trades result) 0
                 then POutcome (get (SimulationResult.total_trades result) 0)
                               (get (SimulationResult.win_rate result) 0%Q)
                               (total_r_of (get (SimulationResult.trades result) []))
                 else Text "No trades"
             end).
Proof.
  apply (X17_console_follows_universe sample_engine the_period
           ["EURUSD"; "XAUUSD"; "BTCUSD"] initial_world 2 "BTCUSD").
  reflexivity.
Defined.


